(** * The curation panel of cellfinder-napari (curation.py), embedded in Rocq

    The panel is a Qt widget living inside a napari viewer.  The embedding
    follows the Python source method by method:

    - layer objects live in an object store ([objs]); a reference to a layer
      is its index there, so that the viewer's collection and the panel's
      fields alias the same object, as they do in Python;
    - a method is a computation in a state-and-exception monad: Python
      exceptions ([AttributeError] on [None.data], [KeyError] on a failed
      [viewer.layers[name]]) are results, and the state reached when the
      exception was raised is kept;
    - the handler registered on [viewer.layers.events] in [__init__] is
      dispatched by [add_points]; the dropdown notifications are wired in
      [utils.add_combobox], which is not part of curation.py, so each
      selection handler is an operation of its own. *)

From Stdlib Require Import Ascii String.
From stdpp Require Import base option list gmap strings.

Local Open Scope string_scope.
Local Open Scope list_scope.

(** ** Values *)

(** [imlib.cells.cells.Cell.CELL] and [Cell.UNKNOWN]. *)
Inductive CellType := UNKNOWN | CELL.

(** Values stored in a layer's [metadata] dict. *)
Inductive MetaVal :=
  | MBool (b : bool)
  | MPointType (t : CellType)
  | MStr (s : string).

(** Runtime classes of layer objects.  [Subclass base n] is a class derived
    from [base]. *)
Inductive PyType :=
  | Image
  | Points
  | OtherLayer (n : string)
  | Subclass (base : PyType) (n : string).

#[global] Instance CellType_eq_dec : EqDecision CellType.
Proof. solve_decision. Defined.
#[global] Instance MetaVal_eq_dec : EqDecision MetaVal.
Proof. solve_decision. Defined.
#[global] Instance PyType_eq_dec : EqDecision PyType.
Proof. solve_decision. Defined.

(** [isinstance(obj, T)] for an object of class [ty]: [ty] is [T] or derives
    from it.  The source does not use it; it is what [type(layer) == T] is
    compared with. *)
Fixpoint isinstance (ty T : PyType) : bool :=
  bool_decide (ty = T) ||
  match ty with
  | Subclass base _ => isinstance base T
  | _ => false
  end.

(** Python exceptions raised on the paths of curation.py.  [BadRef] is the
    model's own: a reference outside the object store, which Python cannot
    produce. *)
Inductive Exn :=
  | AttributeError
  | KeyError (k : string)
  | TypeError
  | BadRef.

(** ** pathlib *)

(** A pure POSIX path as [pathlib] parses it: a root and the components. *)
Record PurePath := { root : string; parts : list string }.

Fixpoint split_slash (acc : string) (s : string) : list string :=
  match s with
  | EmptyString => [String.rev acc]
  | String c s' =>
      if Ascii.eqb c "/"%char then String.rev acc :: split_slash "" s'
      else split_slash (String c acc) s'
  end.

Fixpoint leading_slashes (s : string) : nat :=
  match s with
  | String c s' => if Ascii.eqb c "/"%char then S (leading_slashes s') else 0
  | EmptyString => 0
  end.

(** [Path(s)]: empty and [.] components are dropped; exactly two leading
    slashes are kept as the root, any other positive number is one slash. *)
Definition Path (s : string) : PurePath :=
  {| root := match leading_slashes s with
             | 0 => ""
             | 2 => "//"
             | _ => "/"
             end;
     parts := filter (λ c, c ≠ "" ∧ c ≠ ".") (split_slash "" s) |}.

Definition is_absolute (p : PurePath) : bool := negb (String.eqb (root p) "").

Fixpoint join_slash (l : list string) : string :=
  match l with
  | [] => ""
  | [c] => c
  | c :: l' => c +:+ "/" +:+ join_slash l'
  end.

(** [str(p)] *)
Definition path_str (p : PurePath) : string :=
  match root p, parts p with
  | "", [] => "."
  | r, l => r +:+ join_slash l
  end.

(** What the field [output_directory] holds: [None], the string returned by
    the dialog, or a path. *)
Inductive DirVal :=
  | DNone
  | DStr (s : string)
  | DPath (p : PurePath).

(** ** Qt dropdowns *)

(** A non-editable [QComboBox]: its items and the current index
    ([None] is Qt's -1). *)
Record ComboBox := { items : list string; currentIndex : option nat }.

Definition currentText (cb : ComboBox) : string :=
  match currentIndex cb with
  | Some i => default "" (items cb !! i)
  | None => ""
  end.

Definition clear (cb : ComboBox) : ComboBox :=
  {| items := []; currentIndex := None |}.

(** [addItems]: rows are appended; when they are the whole content and no
    item was current, the first becomes current. *)
Definition addItems (cb : ComboBox) (l : list string) : ComboBox :=
  {| items := items cb ++ l;
     currentIndex :=
       match currentIndex cb, items cb, l with
       | None, [], _ :: _ => Some 0
       | i, _, _ => i
       end |}.

Definition findText (cb : ComboBox) (t : string) : option nat :=
  fst <$> list_find (λ x, x = t) (items cb).

(** [setCurrentText] on a non-editable box: the first item with that text
    becomes current; without one nothing changes. *)
Definition setCurrentText (cb : ComboBox) (t : string) : ComboBox :=
  match findText cb t with
  | Some i => {| items := items cb; currentIndex := Some i |}
  | None => cb
  end.

(** [CurationWidget._update_combobox_options] *)
Definition _update_combobox_options (combobox : ComboBox)
    (options_list : list string) : ComboBox :=
  addItems (clear combobox) options_list.

Section Panel.

(** Coordinates are the entries of a numpy array; the panel only carries
    them around, so their type is left open. *)
Context {Coord : Type}.

(** The name the host viewer gives to a new layer, from the names in use and
    the requested one.  The policy is napari's, not the panel's. *)
Variable coerce_name : list string → string → string.

(** ** Layers and the panel's state *)

Definition Point : Type := Coord * Coord * Coord.

(** A layer object: [name], its class, the rows of [data] (the points of a
    points layer) and the [metadata] dict. *)
Record Layer := {
  name : string;
  pytype : PyType;
  data : list Point;
  metadata : gmap string MetaVal
}.

(** An [imlib] cell record: a position and a label. *)
Record Cell := { pos : Point; cell_type : CellType }.

(** The constructor's keyword arguments, stored and not read again on the
    live paths. *)
Record Config := {
  cube_depth : Z;
  cube_width : Z;
  cube_height : Z;
  network_voxel_sizes : list Z;
  n_free_cpus : Z;
  save_empty_cubes : bool
}.

Definition default_config : Config :=
  {| cube_depth := 50; cube_width := 20; cube_height := 20;
     network_voxel_sizes := [5; 1; 1]%Z; n_free_cpus := 2;
     save_empty_cubes := false |}.

(** The viewer and the widget.  [objs] is the object store, [viewer_layers]
    is [viewer.layers] (references, in order), [dialogs] is the list of
    message boxes shown so far (title, message). *)
Record State := {
  objs : list Layer;
  viewer_layers : list nat;
  config : Config;
  non_cells_to_extract : option (list Cell);
  cells_to_extract : option (list Cell);
  signal_layer : option nat;
  background_layer : option nat;
  training_data_cell_layer : option nat;
  training_data_non_cell_layer : option nat;
  image_layer_names : list string;
  point_layer_names : list string;
  output_directory : DirVal;
  signal_image_choice : ComboBox;
  background_image_choice : ComboBox;
  training_data_cell_choice : ComboBox;
  training_data_non_cell_choice : ComboBox;
  status_label : string;
  dialogs : list (string * string)
}.

Definition set_objs (v : list Layer) (s : State) : State :=
  {| objs := v; viewer_layers := viewer_layers s; config := config s;
     non_cells_to_extract := non_cells_to_extract s;
     cells_to_extract := cells_to_extract s; signal_layer := signal_layer s;
     background_layer := background_layer s;
     training_data_cell_layer := training_data_cell_layer s;
     training_data_non_cell_layer := training_data_non_cell_layer s;
     image_layer_names := image_layer_names s;
     point_layer_names := point_layer_names s;
     output_directory := output_directory s;
     signal_image_choice := signal_image_choice s;
     background_image_choice := background_image_choice s;
     training_data_cell_choice := training_data_cell_choice s;
     training_data_non_cell_choice := training_data_non_cell_choice s;
     status_label := status_label s; dialogs := dialogs s |}.

Definition set_viewer_layers (v : list nat) (s : State) : State :=
  {| objs := objs s; viewer_layers := v; config := config s;
     non_cells_to_extract := non_cells_to_extract s;
     cells_to_extract := cells_to_extract s; signal_layer := signal_layer s;
     background_layer := background_layer s;
     training_data_cell_layer := training_data_cell_layer s;
     training_data_non_cell_layer := training_data_non_cell_layer s;
     image_layer_names := image_layer_names s;
     point_layer_names := point_layer_names s;
     output_directory := output_directory s;
     signal_image_choice := signal_image_choice s;
     background_image_choice := background_image_choice s;
     training_data_cell_choice := training_data_cell_choice s;
     training_data_non_cell_choice := training_data_non_cell_choice s;
     status_label := status_label s; dialogs := dialogs s |}.

Definition set_non_cells_to_extract (v : option (list Cell)) (s : State)
    : State :=
  {| objs := objs s; viewer_layers := viewer_layers s; config := config s;
     non_cells_to_extract := v;
     cells_to_extract := cells_to_extract s; signal_layer := signal_layer s;
     background_layer := background_layer s;
     training_data_cell_layer := training_data_cell_layer s;
     training_data_non_cell_layer := training_data_non_cell_layer s;
     image_layer_names := image_layer_names s;
     point_layer_names := point_layer_names s;
     output_directory := output_directory s;
     signal_image_choice := signal_image_choice s;
     background_image_choice := background_image_choice s;
     training_data_cell_choice := training_data_cell_choice s;
     training_data_non_cell_choice := training_data_non_cell_choice s;
     status_label := status_label s; dialogs := dialogs s |}.

Definition set_cells_to_extract (v : option (list Cell)) (s : State)
    : State :=
  {| objs := objs s; viewer_layers := viewer_layers s; config := config s;
     non_cells_to_extract := non_cells_to_extract s;
     cells_to_extract := v; signal_layer := signal_layer s;
     background_layer := background_layer s;
     training_data_cell_layer := training_data_cell_layer s;
     training_data_non_cell_layer := training_data_non_cell_layer s;
     image_layer_names := image_layer_names s;
     point_layer_names := point_layer_names s;
     output_directory := output_directory s;
     signal_image_choice := signal_image_choice s;
     background_image_choice := background_image_choice s;
     training_data_cell_choice := training_data_cell_choice s;
     training_data_non_cell_choice := training_data_non_cell_choice s;
     status_label := status_label s; dialogs := dialogs s |}.

Definition set_signal_layer (v : option nat) (s : State) : State :=
  {| objs := objs s; viewer_layers := viewer_layers s; config := config s;
     non_cells_to_extract := non_cells_to_extract s;
     cells_to_extract := cells_to_extract s; signal_layer := v;
     background_layer := background_layer s;
     training_data_cell_layer := training_data_cell_layer s;
     training_data_non_cell_layer := training_data_non_cell_layer s;
     image_layer_names := image_layer_names s;
     point_layer_names := point_layer_names s;
     output_directory := output_directory s;
     signal_image_choice := signal_image_choice s;
     background_image_choice := background_image_choice s;
     training_data_cell_choice := training_data_cell_choice s;
     training_data_non_cell_choice := training_data_non_cell_choice s;
     status_label := status_label s; dialogs := dialogs s |}.

Definition set_background_layer (v : option nat) (s : State) : State :=
  {| objs := objs s; viewer_layers := viewer_layers s; config := config s;
     non_cells_to_extract := non_cells_to_extract s;
     cells_to_extract := cells_to_extract s; signal_layer := signal_layer s;
     background_layer := v;
     training_data_cell_layer := training_data_cell_layer s;
     training_data_non_cell_layer := training_data_non_cell_layer s;
     image_layer_names := image_layer_names s;
     point_layer_names := point_layer_names s;
     output_directory := output_directory s;
     signal_image_choice := signal_image_choice s;
     background_image_choice := background_image_choice s;
     training_data_cell_choice := training_data_cell_choice s;
     training_data_non_cell_choice := training_data_non_cell_choice s;
     status_label := status_label s; dialogs := dialogs s |}.

Definition set_training_data_cell_layer (v : option nat) (s : State)
    : State :=
  {| objs := objs s; viewer_layers := viewer_layers s; config := config s;
     non_cells_to_extract := non_cells_to_extract s;
     cells_to_extract := cells_to_extract s; signal_layer := signal_layer s;
     background_layer := background_layer s;
     training_data_cell_layer := v;
     training_data_non_cell_layer := training_data_non_cell_layer s;
     image_layer_names := image_layer_names s;
     point_layer_names := point_layer_names s;
     output_directory := output_directory s;
     signal_image_choice := signal_image_choice s;
     background_image_choice := background_image_choice s;
     training_data_cell_choice := training_data_cell_choice s;
     training_data_non_cell_choice := training_data_non_cell_choice s;
     status_label := status_label s; dialogs := dialogs s |}.

Definition set_training_data_non_cell_layer (v : option nat) (s : State)
    : State :=
  {| objs := objs s; viewer_layers := viewer_layers s; config := config s;
     non_cells_to_extract := non_cells_to_extract s;
     cells_to_extract := cells_to_extract s; signal_layer := signal_layer s;
     background_layer := background_layer s;
     training_data_cell_layer := training_data_cell_layer s;
     training_data_non_cell_layer := v;
     image_layer_names := image_layer_names s;
     point_layer_names := point_layer_names s;
     output_directory := output_directory s;
     signal_image_choice := signal_image_choice s;
     background_image_choice := background_image_choice s;
     training_data_cell_choice := training_data_cell_choice s;
     training_data_non_cell_choice := training_data_non_cell_choice s;
     status_label := status_label s; dialogs := dialogs s |}.

Definition set_image_layer_names (v : list string) (s : State) : State :=
  {| objs := objs s; viewer_layers := viewer_layers s; config := config s;
     non_cells_to_extract := non_cells_to_extract s;
     cells_to_extract := cells_to_extract s; signal_layer := signal_layer s;
     background_layer := background_layer s;
     training_data_cell_layer := training_data_cell_layer s;
     training_data_non_cell_layer := training_data_non_cell_layer s;
     image_layer_names := v;
     point_layer_names := point_layer_names s;
     output_directory := output_directory s;
     signal_image_choice := signal_image_choice s;
     background_image_choice := background_image_choice s;
     training_data_cell_choice := training_data_cell_choice s;
     training_data_non_cell_choice := training_data_non_cell_choice s;
     status_label := status_label s; dialogs := dialogs s |}.

Definition set_point_layer_names (v : list string) (s : State) : State :=
  {| objs := objs s; viewer_layers := viewer_layers s; config := config s;
     non_cells_to_extract := non_cells_to_extract s;
     cells_to_extract := cells_to_extract s; signal_layer := signal_layer s;
     background_layer := background_layer s;
     training_data_cell_layer := training_data_cell_layer s;
     training_data_non_cell_layer := training_data_non_cell_layer s;
     image_layer_names := image_layer_names s;
     point_layer_names := v;
     output_directory := output_directory s;
     signal_image_choice := signal_image_choice s;
     background_image_choice := background_image_choice s;
     training_data_cell_choice := training_data_cell_choice s;
     training_data_non_cell_choice := training_data_non_cell_choice s;
     status_label := status_label s; dialogs := dialogs s |}.

Definition set_output_directory (v : DirVal) (s : State) : State :=
  {| objs := objs s; viewer_layers := viewer_layers s; config := config s;
     non_cells_to_extract := non_cells_to_extract s;
     cells_to_extract := cells_to_extract s; signal_layer := signal_layer s;
     background_layer := background_layer s;
     training_data_cell_layer := training_data_cell_layer s;
     training_data_non_cell_layer := training_data_non_cell_layer s;
     image_layer_names := image_layer_names s;
     point_layer_names := point_layer_names s;
     output_directory := v;
     signal_image_choice := signal_image_choice s;
     background_image_choice := background_image_choice s;
     training_data_cell_choice := training_data_cell_choice s;
     training_data_non_cell_choice := training_data_non_cell_choice s;
     status_label := status_label s; dialogs := dialogs s |}.

Definition set_signal_image_choice (v : ComboBox) (s : State) : State :=
  {| objs := objs s; viewer_layers := viewer_layers s; config := config s;
     non_cells_to_extract := non_cells_to_extract s;
     cells_to_extract := cells_to_extract s; signal_layer := signal_layer s;
     background_layer := background_layer s;
     training_data_cell_layer := training_data_cell_layer s;
     training_data_non_cell_layer := training_data_non_cell_layer s;
     image_layer_names := image_layer_names s;
     point_layer_names := point_layer_names s;
     output_directory := output_directory s;
     signal_image_choice := v;
     background_image_choice := background_image_choice s;
     training_data_cell_choice := training_data_cell_choice s;
     training_data_non_cell_choice := training_data_non_cell_choice s;
     status_label := status_label s; dialogs := dialogs s |}.

Definition set_background_image_choice (v : ComboBox) (s : State) : State :=
  {| objs := objs s; viewer_layers := viewer_layers s; config := config s;
     non_cells_to_extract := non_cells_to_extract s;
     cells_to_extract := cells_to_extract s; signal_layer := signal_layer s;
     background_layer := background_layer s;
     training_data_cell_layer := training_data_cell_layer s;
     training_data_non_cell_layer := training_data_non_cell_layer s;
     image_layer_names := image_layer_names s;
     point_layer_names := point_layer_names s;
     output_directory := output_directory s;
     signal_image_choice := signal_image_choice s;
     background_image_choice := v;
     training_data_cell_choice := training_data_cell_choice s;
     training_data_non_cell_choice := training_data_non_cell_choice s;
     status_label := status_label s; dialogs := dialogs s |}.

Definition set_training_data_cell_choice (v : ComboBox) (s : State)
    : State :=
  {| objs := objs s; viewer_layers := viewer_layers s; config := config s;
     non_cells_to_extract := non_cells_to_extract s;
     cells_to_extract := cells_to_extract s; signal_layer := signal_layer s;
     background_layer := background_layer s;
     training_data_cell_layer := training_data_cell_layer s;
     training_data_non_cell_layer := training_data_non_cell_layer s;
     image_layer_names := image_layer_names s;
     point_layer_names := point_layer_names s;
     output_directory := output_directory s;
     signal_image_choice := signal_image_choice s;
     background_image_choice := background_image_choice s;
     training_data_cell_choice := v;
     training_data_non_cell_choice := training_data_non_cell_choice s;
     status_label := status_label s; dialogs := dialogs s |}.

Definition set_training_data_non_cell_choice (v : ComboBox) (s : State)
    : State :=
  {| objs := objs s; viewer_layers := viewer_layers s; config := config s;
     non_cells_to_extract := non_cells_to_extract s;
     cells_to_extract := cells_to_extract s; signal_layer := signal_layer s;
     background_layer := background_layer s;
     training_data_cell_layer := training_data_cell_layer s;
     training_data_non_cell_layer := training_data_non_cell_layer s;
     image_layer_names := image_layer_names s;
     point_layer_names := point_layer_names s;
     output_directory := output_directory s;
     signal_image_choice := signal_image_choice s;
     background_image_choice := background_image_choice s;
     training_data_cell_choice := training_data_cell_choice s;
     training_data_non_cell_choice := v;
     status_label := status_label s; dialogs := dialogs s |}.

Definition set_status_label (v : string) (s : State) : State :=
  {| objs := objs s; viewer_layers := viewer_layers s; config := config s;
     non_cells_to_extract := non_cells_to_extract s;
     cells_to_extract := cells_to_extract s; signal_layer := signal_layer s;
     background_layer := background_layer s;
     training_data_cell_layer := training_data_cell_layer s;
     training_data_non_cell_layer := training_data_non_cell_layer s;
     image_layer_names := image_layer_names s;
     point_layer_names := point_layer_names s;
     output_directory := output_directory s;
     signal_image_choice := signal_image_choice s;
     background_image_choice := background_image_choice s;
     training_data_cell_choice := training_data_cell_choice s;
     training_data_non_cell_choice := training_data_non_cell_choice s;
     status_label := v; dialogs := dialogs s |}.

Definition set_dialogs (v : list (string * string)) (s : State) : State :=
  {| objs := objs s; viewer_layers := viewer_layers s; config := config s;
     non_cells_to_extract := non_cells_to_extract s;
     cells_to_extract := cells_to_extract s; signal_layer := signal_layer s;
     background_layer := background_layer s;
     training_data_cell_layer := training_data_cell_layer s;
     training_data_non_cell_layer := training_data_non_cell_layer s;
     image_layer_names := image_layer_names s;
     point_layer_names := point_layer_names s;
     output_directory := output_directory s;
     signal_image_choice := signal_image_choice s;
     background_image_choice := background_image_choice s;
     training_data_cell_choice := training_data_cell_choice s;
     training_data_non_cell_choice := training_data_non_cell_choice s;
     status_label := status_label s; dialogs := v |}.

(** ** The monad of methods *)

(** A call returns a value or raises; either way it leaves a state. *)
Inductive Res (A : Type) :=
  | Ok (a : A) (s : State)
  | Raise (e : Exn) (s : State).
Arguments Ok {A} a s.
Arguments Raise {A} e s.

Definition M (A : Type) : Type := State → Res A.

Definition ret {A} (a : A) : M A := λ s, Ok a s.
Definition raise {A} (e : Exn) : M A := λ s, Raise e s.
Definition bind {A B} (m : M A) (k : A → M B) : M B :=
  λ s, match m s with
       | Ok a s' => k a s'
       | Raise e s' => Raise e s'
       end.
Definition get : M State := λ s, Ok s s.
Definition modify (f : State → State) : M unit := λ s, Ok tt (f s).

Declare Scope py_scope.
Notation "x ← m ; k" := (bind m (λ x, k))
  (at level 20, m at level 100, k at level 200, only parsing) : py_scope.
Notation "m ;; k" := (bind m (λ _, k))
  (at level 100, k at level 200, right associativity, only parsing)
  : py_scope.
Local Open Scope py_scope.

(** ** The host viewer *)

(** The layer objects of [viewer.layers], in order. *)
Definition viewer_objs (s : State) : list Layer :=
  omap (λ r, objs s !! r) (viewer_layers s).

(** The names in use in the viewer. *)
Definition viewer_names (s : State) : list string := name <$> viewer_objs s.

(** [viewer.layers[key]] for a string key: the layer of that name. *)
Definition layers_getitem (key : string) : M nat :=
  s ← get;
  match list_find (λ r, name <$> objs s !! r = Some key) (viewer_layers s) with
  | Some (_, r) => ret r
  | None => raise (KeyError key)
  end.

(** [obj.data] where [obj] is what a field holds. *)
Definition getattr_data (obj : option nat) : M (list Point) :=
  s ← get;
  match obj with
  | None => raise AttributeError
  | Some r =>
      match objs s !! r with
      | Some l => ret (data l)
      | None => raise BadRef
      end
  end.

(** [obj.metadata[key] = v] *)
Definition setitem_metadata (obj : option nat) (key : string) (v : MetaVal)
    : M unit :=
  s ← get;
  match obj with
  | None => raise AttributeError
  | Some r =>
      match objs s !! r with
      | Some l =>
          modify (set_objs
            (<[r := {| name := name l; pytype := pytype l; data := data l;
                       metadata := <[key := v]> (metadata l) |}]> (objs s)))
      | None => raise BadRef
      end
  end.

(** Truth value of a field holding [None] or a layer: layers define neither
    [__bool__] nor [__len__]. *)
Definition truthy (obj : option nat) : bool :=
  match obj with
  | Some _ => true
  | None => false
  end.

(** Modelled from the spec: [utils.display_info], which is not part of
    curation.py: a modal informational message box with a title and a
    message.  The box is recorded in [dialogs]. *)
Definition display_info (title message : string) : M unit :=
  modify (λ s, set_dialogs (dialogs s ++ [(title, message)]) s).

(** Modelled from the spec: [utils.add_combobox], which is not part of
    curation.py: a new dropdown filled with the given items. *)
Definition add_combobox (options : list string) : ComboBox :=
  addItems {| items := []; currentIndex := None |} options.

(** ** The methods of [CurationWidget] *)

(** [_get_layer_names]: the list comprehension over [viewer.layers] with the
    test [type(layer) == layer_type]. *)
Definition _get_layer_names (layer_type : PyType) (s : State) : list string :=
  name <$> filter (λ layer, pytype layer = layer_type) (viewer_objs s).

(** [update_layer_list], the handler connected to [viewer.layers.events]. *)
Definition update_layer_list (s : State) : State :=
  let s := set_image_layer_names (_get_layer_names Image s) s in
  let s := set_point_layer_names (_get_layer_names Points s) s in
  let s := set_signal_image_choice (clear (signal_image_choice s)) s in
  let s := set_signal_image_choice
             (_update_combobox_options (signal_image_choice s)
                (image_layer_names s)) s in
  let s := set_background_image_choice
             (_update_combobox_options (background_image_choice s)
                (image_layer_names s)) s in
  let s := set_training_data_cell_choice
             (_update_combobox_options (training_data_cell_choice s)
                (point_layer_names s)) s in
  let s := set_training_data_non_cell_choice
             (_update_combobox_options (training_data_non_cell_choice s)
                (point_layer_names s)) s in
  s.

(** [viewer.add_points(data, name=..., metadata=...)]: a new points layer
    enters the store and the collection, the collection notifies its
    listeners, and the layer is returned.  The styling keywords do not
    reach the state. *)
Definition add_points (d : list Point) (nm : string)
    (meta : gmap string MetaVal) : M nat :=
  s ← get;
  let r := length (objs s) in
  let layer := {| name := coerce_name (viewer_names s) nm; pytype := Points;
                  data := d; metadata := meta |} in
  modify (set_objs (objs s ++ [layer]));;
  modify (λ s, set_viewer_layers (viewer_layers s ++ [r]) s);;
  modify update_layer_list;;
  ret r.

(** [__init__], with [setup_main_layout] and [add_loading_panel]: the fields,
    the four dropdowns and the status label. *)
Definition __init__ (store : list Layer) (layers : list nat) (cfg : Config)
    : State :=
  let s0 :=
    {| objs := store; viewer_layers := layers; config := cfg;
       non_cells_to_extract := None; cells_to_extract := None;
       signal_layer := None; background_layer := None;
       training_data_cell_layer := None;
       training_data_non_cell_layer := None;
       image_layer_names := []; point_layer_names := [];
       output_directory := DNone;
       signal_image_choice := {| items := []; currentIndex := None |};
       background_image_choice := {| items := []; currentIndex := None |};
       training_data_cell_choice := {| items := []; currentIndex := None |};
       training_data_non_cell_choice :=
         {| items := []; currentIndex := None |};
       status_label := ""; dialogs := [] |} in
  let s := set_image_layer_names (_get_layer_names Image s0) s0 in
  let s := set_point_layer_names (_get_layer_names Points s) s in
  let s := set_signal_image_choice (add_combobox (image_layer_names s)) s in
  let s := set_background_image_choice
             (add_combobox (image_layer_names s)) s in
  let s := set_training_data_cell_choice
             (add_combobox (point_layer_names s)) s in
  let s := set_training_data_non_cell_choice
             (add_combobox (point_layer_names s)) s in
  set_status_label "Ready" s.

Definition set_signal_image : M unit :=
  s ← get;
  if bool_decide (currentText (signal_image_choice s) ≠ "") then
    r ← layers_getitem (currentText (signal_image_choice s));
    modify (set_signal_layer (Some r))
  else ret tt.

Definition set_background_image : M unit :=
  s ← get;
  if bool_decide (currentText (background_image_choice s) ≠ "") then
    r ← layers_getitem (currentText (background_image_choice s));
    modify (set_background_layer (Some r))
  else ret tt.

Definition set_training_data_cell : M unit :=
  s ← get;
  if bool_decide (currentText (training_data_cell_choice s) ≠ "") then
    r ← layers_getitem (currentText (training_data_cell_choice s));
    modify (set_training_data_cell_layer (Some r));;
    s ← get;
    setitem_metadata (training_data_cell_layer s)
      "point_type" (MPointType CELL);;
    s ← get;
    setitem_metadata (training_data_cell_layer s) "training_data" (MBool true)
  else ret tt.

Definition set_training_data_non_cell : M unit :=
  s ← get;
  if bool_decide (currentText (training_data_non_cell_choice s) ≠ "") then
    r ← layers_getitem (currentText (training_data_non_cell_choice s));
    modify (set_training_data_non_cell_layer (Some r));;
    s ← get;
    setitem_metadata (training_data_non_cell_layer s)
      "point_type" (MPointType UNKNOWN);;
    s ← get;
    setitem_metadata (training_data_non_cell_layer s)
      "training_data" (MBool true)
  else ret tt.

(** [dict(point_type=t, training_data=True)] *)
Definition training_metadata (t : CellType) : gmap string MetaVal :=
  <["training_data" := MBool true]> (<["point_type" := MPointType t]> ∅).

(** The two [add_points] statements of [add_training_data]: both assign the
    field [training_data_cell_layer]. *)
Definition add_cell_points (cell_name : string) : M unit :=
  r ← add_points [] cell_name (training_metadata CELL);
  modify (set_training_data_cell_layer (Some r)).

Definition add_non_cell_points (non_cell_name : string) : M unit :=
  r ← add_points [] non_cell_name (training_metadata UNKNOWN);
  modify (set_training_data_cell_layer (Some r)).

Definition add_training_data (cell_name non_cell_name : string) : M unit :=
  add_cell_points cell_name;;
  add_non_cell_points non_cell_name;;
  modify (λ s, set_training_data_cell_choice
                 (setCurrentText (training_data_cell_choice s) cell_name) s);;
  modify (λ s, set_training_data_non_cell_choice
                 (setCurrentText (training_data_non_cell_choice s)
                    non_cell_name) s).

(** The default arguments of [add_training_data]. *)
Definition default_cell_name : string := "Training data (cells)".
Definition default_non_cell_name : string := "Training data (non cells)".

Definition no_layers_message : string :=
  "No training data layers have been added. " +:+
  "Please add a layer and annotate some points.".
Definition no_points_message : string :=
  "No training data points have been added. " +:+
  "Please annotate some points.".

Definition check_training_data_exists : M bool :=
  s ← get;
  if negb (truthy (training_data_cell_layer s)
           || truthy (training_data_non_cell_layer s)) then
    display_info "No training data" no_layers_message;;
    ret false
  else
    d ← getattr_data (training_data_cell_layer s);
    if bool_decide (0 < length d) then ret true
    else
      d' ← getattr_data (training_data_non_cell_layer s);
      if bool_decide (0 < length d') then ret true
      else
        display_info "No training data" no_points_message;;
        ret false.

(** [get_output_directory]; [chosen] is what the directory dialog returns
    (the empty string when it is cancelled). *)
Definition get_output_directory (chosen : string) : M unit :=
  modify (set_status_label "Setting output directory...");;
  modify (set_output_directory (DStr chosen));;
  s ← get;
  match output_directory s with
  | DStr d => modify (set_output_directory (DPath (Path d)))
  | DPath p => modify (set_output_directory (DPath p))
  | DNone => raise TypeError
  end.

(** Modelled from the spec: [convert_layer_to_cells] of
    [brainglobe_napari_io.cellfinder.utils], which is not part of
    curation.py: it takes a point layer's raw coordinate array and a boolean
    flag and returns a list of labeled cell records, one per coordinate, in
    order, with the coordinate values as they are. *)
Definition convert_layer_to_cells (layer_data : list Point) (cells : bool)
    : list Cell :=
  (λ p, {| pos := p; cell_type := if cells then CELL else UNKNOWN |})
    <$> layer_data.

Definition convert_layers_to_cells : M unit :=
  s ← get;
  d ← getattr_data (training_data_cell_layer s);
  modify (set_cells_to_extract (Some (convert_layer_to_cells d true)));;
  s ← get;
  d' ← getattr_data (training_data_non_cell_layer s);
  modify (set_non_cells_to_extract (Some (convert_layer_to_cells d' false))).

(** [extract_cubes]; the loop over the two classes is commented out in the
    source and has no counterpart here. *)
Definition extract_cubes (chosen : string) : M unit :=
  ok ← check_training_data_exists;
  if ok then
    get_output_directory chosen;;
    modify (set_status_label "Extracting cubes");;
    convert_layers_to_cells;;
    modify (set_status_label "Ready")
  else ret tt.

(** ** Specification vocabulary *)

(** A dropdown shows exactly the viewer's layers of class [T]: no entry
    twice, every entry names such a layer, every such layer is named. *)
Definition shows (cb : ComboBox) (T : PyType) (s : State) : Prop :=
  NoDup (items cb) ∧
  ∀ n, n ∈ items cb ↔
       ∃ layer, layer ∈ viewer_objs s ∧ pytype layer = T ∧ name layer = n.

(** The layer [l] after a selection handler has tagged it with [t]. *)
Definition tagged (t : CellType) (l : Layer) : Layer :=
  {| name := name l; pytype := pytype l; data := data l;
     metadata := <["training_data" := MBool true]>
                   (<["point_type" := MPointType t]> (metadata l)) |}.

(** The layer that [add_training_data] asks the viewer for. *)
Definition new_points_layer (nm : string) (t : CellType) : Layer :=
  {| name := nm; pytype := Points; data := [];
     metadata := training_metadata t |}.

(** The state an export ends in when both training layers are set: the
    output directory, the two record lists and the status label. *)
Definition exported (chosen : string) (lc ln : Layer) (s : State) : State :=
  set_status_label "Ready"
    (set_non_cells_to_extract (Some (convert_layer_to_cells (data ln) false))
       (set_cells_to_extract (Some (convert_layer_to_cells (data lc) true))
          (set_output_directory (DPath (Path chosen)) s))).

(** The state after the viewer has taken in the new layer [l] and the
    layer-change handler has run. *)
Definition with_new_layer (l : Layer) (s : State) : State :=
  update_layer_list
    (set_viewer_layers (viewer_layers s ++ [length (objs s)])
       (set_objs (objs s ++ [l]) s)).

(** The state after one of the two [add_points] statements of
    [add_training_data], asking for a layer named [nm] labelled [t]. *)
Definition after_add_points (nm : string) (t : CellType) (s : State)
    : State :=
  set_training_data_cell_layer (Some (length (objs s)))
    (with_new_layer (new_points_layer (coerce_name (viewer_names s) nm) t) s).

(** The state after the two [setCurrentText] statements. *)
Definition select_both (cell_name non_cell_name : string) (s : State)
    : State :=
  set_training_data_non_cell_choice
    (setCurrentText (training_data_non_cell_choice s) non_cell_name)
    (set_training_data_cell_choice
       (setCurrentText (training_data_cell_choice s) cell_name) s).

(** What a selection handler does to the store when it picks the layer [l]
    at reference [r] and tags it with [t]: that layer keeps its name, class
    and data, gets the two keys and keeps every other key; every other
    object and the collection are as before. *)
Definition selection_effect (t : CellType) (r : nat) (l : Layer)
    (s s' : State) : Prop :=
  objs s !! r = Some l ∧
  (∃ l', objs s' !! r = Some l' ∧
         name l' = name l ∧ pytype l' = pytype l ∧ data l' = data l ∧
         metadata l' !! "point_type" = Some (MPointType t) ∧
         metadata l' !! "training_data" = Some (MBool true) ∧
         ∀ k, k ≠ "point_type" → k ≠ "training_data" →
              metadata l' !! k = metadata l !! k) ∧
  (∀ r', r' ≠ r → objs s' !! r' = objs s !! r') ∧
  viewer_layers s' = viewer_layers s.

(** The references of a state stay inside the object store. *)
Definition refs_ok (s : State) : Prop :=
  Forall (λ r, r < length (objs s)) (viewer_layers s).

(** ** Events of the panel *)

(** The state a call leaves, whether it returned or raised. *)
Definition res_state {A} (r : Res A) : State :=
  match r with
  | Ok _ s => s
  | Raise _ s => s
  end.

(** What the host can ask of the panel: a dropdown notification, a click on
    one of the two buttons (with what the directory dialog returns), or a
    layer-change notification. *)
Inductive Event :=
  | SignalChosen
  | BackgroundChosen
  | CellChosen
  | NonCellChosen
  | AddClicked (cell_name non_cell_name : string)
  | ExtractClicked (chosen : string)
  | LayersChanged.

Definition handle (e : Event) : M unit :=
  match e with
  | SignalChosen => set_signal_image
  | BackgroundChosen => set_background_image
  | CellChosen => set_training_data_cell
  | NonCellChosen => set_training_data_non_cell
  | AddClicked cell_name non_cell_name =>
      add_training_data cell_name non_cell_name
  | ExtractClicked chosen => extract_cubes chosen
  | LayersChanged => modify update_layer_list
  end.

(** A handler that raises is abandoned; the panel goes on from the state it
    left. *)
Definition after_events (es : list Event) (s : State) : State :=
  foldl (λ s e, res_state (handle e s)) s es.

(** A field holding a layer refers to an object of the store. *)
Definition field_ok (s : State) (f : option nat) : Prop :=
  match f with
  | Some r => r < length (objs s)
  | None => True
  end.

(** No reference of the state leaves the store. *)
Definition wf (s : State) : Prop :=
  refs_ok s ∧
  field_ok s (signal_layer s) ∧ field_ok s (background_layer s) ∧
  field_ok s (training_data_cell_layer s) ∧
  field_ok s (training_data_non_cell_layer s).

(** The four dropdowns list the viewer's image and points layers. *)
Definition synced (s : State) : Prop :=
  items (signal_image_choice s) = _get_layer_names Image s ∧
  items (background_image_choice s) = _get_layer_names Image s ∧
  items (training_data_cell_choice s) = _get_layer_names Points s ∧
  items (training_data_non_cell_choice s) = _get_layer_names Points s.

(** The viewer, the layer fields and the dropdowns of [s'] are those of
    [s]. *)
Definition same_viewer (s s' : State) : Prop :=
  objs s' = objs s ∧ viewer_layers s' = viewer_layers s ∧
  signal_layer s' = signal_layer s ∧
  background_layer s' = background_layer s ∧
  training_data_cell_layer s' = training_data_cell_layer s ∧
  training_data_non_cell_layer s' = training_data_non_cell_layer s ∧
  signal_image_choice s' = signal_image_choice s ∧
  background_image_choice s' = background_image_choice s ∧
  training_data_cell_choice s' = training_data_cell_choice s ∧
  training_data_non_cell_choice s' = training_data_non_cell_choice s.

(** Every object of [s] is still in [s'], with its name, class and data and
    with its metadata changed at most at the keys [point_type] and
    [training_data]; the collection of [s'] starts with that of [s]. *)
Definition extends (s s' : State) : Prop :=
  (∀ r l, objs s !! r = Some l →
     ∃ l', objs s' !! r = Some l' ∧
           name l' = name l ∧ pytype l' = pytype l ∧ data l' = data l ∧
           ∀ k, k ≠ "point_type" → k ≠ "training_data" →
                metadata l' !! k = metadata l !! k) ∧
  viewer_layers s `prefix_of` viewer_layers s'.

(** A computation keeps the relation [R] between the state it starts in and
    the state it leaves. *)
Definition keeps (R : State → State → Prop) {A} (m : M A) : Prop :=
  ∀ s, R s (res_state (m s)).

(** ** Enumerating layer names *)

Lemma subclass_neq (T : PyType) (c : string) : Subclass T c ≠ T.
Proof.
  induction T as [| |n|base IH c']; try discriminate.
  intros [= H1 H2]. subst. by apply IH.
Qed.

Lemma isinstance_refl (T : PyType) : isinstance T T = true.
Proof.
  unfold isinstance. destruct T; fold isinstance;
    by rewrite bool_decide_eq_true_2.
Qed.

Lemma isinstance_subclass (T : PyType) (c : string) :
  isinstance (Subclass T c) T = true.
Proof. simpl. rewrite isinstance_refl. apply orb_true_r. Qed.

Lemma get_layer_names_elem (T : PyType) (s : State) (n : string) :
  n ∈ _get_layer_names T s ↔
  ∃ layer, layer ∈ viewer_objs s ∧ pytype layer = T ∧ name layer = n.
Proof.
  unfold _get_layer_names. rewrite list_elem_of_fmap. split.
  - intros (l & -> & Hl). apply list_elem_of_filter in Hl as [HT Hl]. eauto.
  - intros (l & Hl & HT & <-). exists l. split; [done|].
    by apply list_elem_of_filter.
Qed.

Lemma get_layer_names_sublist (T : PyType) (s : State) :
  _get_layer_names T s `sublist_of` viewer_names s.
Proof. unfold _get_layer_names, viewer_names. f_equiv. apply sublist_filter. Qed.

Lemma get_layer_names_NoDup (T : PyType) (s : State) :
  NoDup (viewer_names s) → NoDup (_get_layer_names T s).
Proof. intros H. eapply sublist_NoDup; [done|apply get_layer_names_sublist]. Qed.

(** A layer whose class is not [T] contributes no entry. *)
Lemma get_layer_names_skip (T : PyType) (s : State) (l1 l2 : list Layer)
    (x : Layer) :
  viewer_objs s = l1 ++ x :: l2 → pytype x ≠ T →
  _get_layer_names T s =
    (name <$> filter (λ layer, pytype layer = T) l1) ++
    (name <$> filter (λ layer, pytype layer = T) l2).
Proof.
  intros Hv Hx. unfold _get_layer_names. rewrite Hv.
  rewrite filter_app, filter_cons_False by done. by rewrite fmap_app.
Qed.

(** A layer whose class is exactly [T] contributes its name. *)
Lemma get_layer_names_keep (T : PyType) (s : State) (l1 l2 : list Layer)
    (x : Layer) :
  viewer_objs s = l1 ++ x :: l2 → pytype x = T →
  _get_layer_names T s =
    (name <$> filter (λ layer, pytype layer = T) l1) ++
    name x :: (name <$> filter (λ layer, pytype layer = T) l2).
Proof.
  intros Hv Hx. unfold _get_layer_names. rewrite Hv.
  rewrite filter_app, filter_cons_True by done. by rewrite fmap_app.
Qed.

(** C10: [_get_layer_names] lists a layer only when its class is exactly the
    requested one: an entry always comes from a layer of that very class, a
    layer of that class adds its name, and an instance of a subclass, for
    which [isinstance] holds, adds nothing. *)
Theorem get_layer_names_exact_type (T : PyType) (s : State)
    (l1 l2 : list Layer) (x : Layer) :
  viewer_objs s = l1 ++ x :: l2 →
  (∀ n, n ∈ _get_layer_names T s ↔
        ∃ layer, layer ∈ viewer_objs s ∧ pytype layer = T ∧ name layer = n) ∧
  (pytype x = T →
     _get_layer_names T s =
       (name <$> filter (λ layer, pytype layer = T) l1) ++
       name x :: (name <$> filter (λ layer, pytype layer = T) l2)) ∧
  (∀ c, pytype x = Subclass T c →
     isinstance (pytype x) T = true ∧
     _get_layer_names T s =
       (name <$> filter (λ layer, pytype layer = T) l1) ++
       (name <$> filter (λ layer, pytype layer = T) l2)).
Proof.
  intros Hv. split_and!.
  - intros n. apply get_layer_names_elem.
  - intros HT. by eapply get_layer_names_keep.
  - intros c Hc. split.
    + rewrite Hc. apply isinstance_subclass.
    + eapply get_layer_names_skip; [done|]. rewrite Hc. apply subclass_neq.
Qed.

(** ** Refreshing the dropdowns *)

Lemma update_combobox_options_items (cb : ComboBox) (l : list string) :
  items (_update_combobox_options cb l) = l.
Proof. reflexivity. Qed.

Lemma update_combobox_options_text (cb : ComboBox) (l : list string) :
  currentText (_update_combobox_options cb l) = default "" (head l).
Proof. by destruct l. Qed.

(** The handler touches the two name lists and the four dropdowns only. *)
Lemma update_layer_list_frame (s : State) :
  objs (update_layer_list s) = objs s ∧
  viewer_layers (update_layer_list s) = viewer_layers s ∧
  training_data_cell_layer (update_layer_list s) = training_data_cell_layer s ∧
  training_data_non_cell_layer (update_layer_list s) =
    training_data_non_cell_layer s ∧
  signal_layer (update_layer_list s) = signal_layer s ∧
  background_layer (update_layer_list s) = background_layer s ∧
  status_label (update_layer_list s) = status_label s ∧
  dialogs (update_layer_list s) = dialogs s.
Proof. by split_and!. Qed.

Lemma update_layer_list_viewer_objs (s : State) :
  viewer_objs (update_layer_list s) = viewer_objs s.
Proof. reflexivity. Qed.

Lemma update_layer_list_items (s : State) :
  items (signal_image_choice (update_layer_list s)) =
    _get_layer_names Image s ∧
  items (background_image_choice (update_layer_list s)) =
    _get_layer_names Image s ∧
  items (training_data_cell_choice (update_layer_list s)) =
    _get_layer_names Points s ∧
  items (training_data_non_cell_choice (update_layer_list s)) =
    _get_layer_names Points s.
Proof. by split_and!. Qed.

(** Running the handler a second time changes nothing. *)
Lemma update_layer_list_idem (s : State) :
  update_layer_list (update_layer_list s) = update_layer_list s.
Proof. destruct s. vm_compute. reflexivity. Qed.

Lemma get_layer_names_shows (T : PyType) (s s' : State) (cb : ComboBox) :
  NoDup (viewer_names s) → viewer_objs s' = viewer_objs s →
  items cb = _get_layer_names T s → shows cb T s'.
Proof.
  intros Hnd Hv Hi. unfold shows. rewrite Hi, Hv. split.
  - by apply get_layer_names_NoDup.
  - intros n. apply get_layer_names_elem.
Qed.

(** After a refresh the text of a dropdown is empty or names a layer of the
    viewer. *)
Lemma update_layer_list_text_live (s : State) :
  let s' := update_layer_list s in
  let t := currentText (training_data_cell_choice s') in
  t = "" ∨ t ∈ viewer_names s'.
Proof.
  intros s' t.
  assert (Ht : t = default "" (head (_get_layer_names Points s))).
  { apply update_combobox_options_text. }
  destruct (_get_layer_names Points s) as [|n l] eqn:E; [by left|right].
  rewrite Ht. simpl.
  apply (elem_of_sublist (_get_layer_names Points s)).
  - rewrite E. left.
  - change (viewer_names s') with (viewer_names s).
    apply get_layer_names_sublist.
Qed.

(** C5: after the layer-change handler has run, each of the four dropdowns
    holds exactly the names of the viewer's current layers of its kind
    (class [Image] for the two image dropdowns, class [Points] for the two
    point dropdowns), without duplicates and without stale entries; the
    viewer keeps the names of its layers distinct. *)
Theorem update_layer_list_dropdowns (s : State) :
  NoDup (viewer_names s) →
  let s' := update_layer_list s in
  viewer_objs s' = viewer_objs s ∧
  shows (signal_image_choice s') Image s' ∧
  shows (background_image_choice s') Image s' ∧
  shows (training_data_cell_choice s') Points s' ∧
  shows (training_data_non_cell_choice s') Points s'.
Proof.
  intros Hnd s'. split; [reflexivity|].
  split_and!; by apply (get_layer_names_shows _ s).
Qed.

(** ** Running methods *)

(** Unfolds the monad and the primitive accesses of a method body. *)
Ltac run_method :=
  cbv [bind get modify ret raise display_info getattr_data setitem_metadata
       layers_getitem truthy].

(** Rewrites with a fact about the state and reduces what it unblocks. *)
Ltac use H := simpl; rewrite ?H; simpl.

(** ** Choosing the output directory *)

Lemma Path_empty : Path "" = {| root := ""; parts := [] |}.
Proof. reflexivity. Qed.

(** C9: after [get_output_directory] the field [output_directory] holds a
    path, whatever the dialog returned, and no exception is raised; when the
    dialog is cancelled (empty string) the field is [Path("")], a relative
    path without components whose text is the current directory. *)
Theorem get_output_directory_holds_path (s : State) :
  (∀ chosen,
     ∃ s', get_output_directory chosen s = Ok tt s' ∧
           output_directory s' = DPath (Path chosen) ∧
           s' = set_output_directory (DPath (Path chosen))
                  (set_status_label "Setting output directory..." s)) ∧
  (∃ s', get_output_directory "" s = Ok tt s' ∧
         output_directory s' = DPath (Path "") ∧
         output_directory s' ≠ DNone ∧
         Path "" = {| root := ""; parts := [] |} ∧
         is_absolute (Path "") = false ∧
         path_str (Path "") = ".").
Proof.
  split.
  - intros chosen. eexists. split; [reflexivity|]. by split.
  - eexists. split; [reflexivity|]. by split_and!.
Qed.

(** ** Converting layers to cell records *)

Lemma convert_layer_to_cells_lookup (layer_data : list Point) (cells : bool)
    (i : nat) :
  convert_layer_to_cells layer_data cells !! i =
    (λ p, {| pos := p; cell_type := if cells then CELL else UNKNOWN |})
      <$> layer_data !! i.
Proof. unfold convert_layer_to_cells. apply list_lookup_fmap. Qed.

Lemma convert_layer_to_cells_pos (layer_data : list Point) (cells : bool) :
  pos <$> convert_layer_to_cells layer_data cells = layer_data.
Proof.
  unfold convert_layer_to_cells.
  induction layer_data as [|p l IH]; [done|]. simpl. f_equal. apply IH.
Qed.

Lemma convert_layer_to_cells_label (layer_data : list Point) (cells : bool) :
  Forall (λ c, cell_type c = if cells then CELL else UNKNOWN)
    (convert_layer_to_cells layer_data cells).
Proof.
  unfold convert_layer_to_cells.
  induction layer_data as [|p l IH]; constructor; [done|apply IH].
Qed.

Lemma convert_layers_to_cells_both (s : State) (rc rn : nat) (lc ln : Layer) :
  training_data_cell_layer s = Some rc → objs s !! rc = Some lc →
  training_data_non_cell_layer s = Some rn → objs s !! rn = Some ln →
  convert_layers_to_cells s =
    Ok tt (set_non_cells_to_extract
             (Some (convert_layer_to_cells (data ln) false))
             (set_cells_to_extract
                (Some (convert_layer_to_cells (data lc) true)) s)).
Proof.
  intros Hc Hlc Hn Hln. unfold convert_layers_to_cells. run_method.
  use Hc. use Hlc. use Hn. by use Hln.
Qed.

Lemma convert_layers_to_cells_cell_unset (s : State) :
  training_data_cell_layer s = None →
  convert_layers_to_cells s = Raise AttributeError s.
Proof.
  intros Hc. unfold convert_layers_to_cells. run_method. by rewrite Hc.
Qed.

Lemma convert_layers_to_cells_non_cell_unset (s : State) (rc : nat)
    (lc : Layer) :
  training_data_cell_layer s = Some rc → objs s !! rc = Some lc →
  training_data_non_cell_layer s = None →
  convert_layers_to_cells s =
    Raise AttributeError
      (set_cells_to_extract (Some (convert_layer_to_cells (data lc) true)) s).
Proof.
  intros Hc Hlc Hn. unfold convert_layers_to_cells. run_method.
  use Hc. use Hlc. by use Hn.
Qed.

(** C7: the record-conversion helper turns N coordinates into N records with
    the label of the flag, in the same order and with the same coordinate
    values; [convert_layers_to_cells] applies it to the cell layer with the
    flag set and to the non-cell layer with the flag cleared. *)
Theorem convert_layer_to_cells_preserves (layer_data : list Point)
    (cells : bool) :
  length (convert_layer_to_cells layer_data cells) = length layer_data ∧
  pos <$> convert_layer_to_cells layer_data cells = layer_data ∧
  (∀ i, convert_layer_to_cells layer_data cells !! i =
          (λ p, {| pos := p; cell_type := if cells then CELL else UNKNOWN |})
            <$> layer_data !! i) ∧
  Forall (λ c, cell_type c = if cells then CELL else UNKNOWN)
    (convert_layer_to_cells layer_data cells) ∧
  (∀ s rc rn lc ln,
     training_data_cell_layer s = Some rc → objs s !! rc = Some lc →
     training_data_non_cell_layer s = Some rn → objs s !! rn = Some ln →
     ∃ s', convert_layers_to_cells s = Ok tt s' ∧
           cells_to_extract s' =
             Some (convert_layer_to_cells (data lc) true) ∧
           non_cells_to_extract s' =
             Some (convert_layer_to_cells (data ln) false)).
Proof.
  split_and!.
  - apply length_fmap.
  - apply convert_layer_to_cells_pos.
  - apply convert_layer_to_cells_lookup.
  - apply convert_layer_to_cells_label.
  - intros s rc rn lc ln Hc Hlc Hn Hln. eexists. split.
    + by eapply convert_layers_to_cells_both.
    + by split.
Qed.

(** ** Validating the annotations *)

Lemma check_no_layers (s : State) :
  training_data_cell_layer s = None →
  training_data_non_cell_layer s = None →
  check_training_data_exists s =
    Ok false
      (set_dialogs (dialogs s ++ [("No training data", no_layers_message)]) s).
Proof.
  intros Hc Hn. unfold check_training_data_exists. run_method.
  by rewrite Hc, Hn.
Qed.

Lemma check_cell_has_points (s : State) (rc : nat) (lc : Layer) :
  training_data_cell_layer s = Some rc → objs s !! rc = Some lc →
  0 < length (data lc) →
  check_training_data_exists s = Ok true s.
Proof.
  intros Hc Hlc Hpos. unfold check_training_data_exists. run_method.
  use Hc. use Hlc. by rewrite bool_decide_eq_true_2.
Qed.

Lemma check_non_cell_has_points (s : State) (rc rn : nat) (lc ln : Layer) :
  training_data_cell_layer s = Some rc → objs s !! rc = Some lc →
  training_data_non_cell_layer s = Some rn → objs s !! rn = Some ln →
  0 < length (data ln) →
  check_training_data_exists s = Ok true s.
Proof.
  intros Hc Hlc Hn Hln Hpos. unfold check_training_data_exists. run_method.
  use Hc. use Hlc. case_bool_decide; [done|].
  use Hn. use Hln. by rewrite bool_decide_eq_true_2.
Qed.

Lemma check_no_points (s : State) (rc rn : nat) (lc ln : Layer) :
  training_data_cell_layer s = Some rc → objs s !! rc = Some lc →
  training_data_non_cell_layer s = Some rn → objs s !! rn = Some ln →
  data lc = [] → data ln = [] →
  check_training_data_exists s =
    Ok false
      (set_dialogs (dialogs s ++ [("No training data", no_points_message)]) s).
Proof.
  intros Hc Hlc Hn Hln Hdc Hdn. unfold check_training_data_exists.
  run_method. use Hc. use Hlc. use Hdc. use Hn. use Hln. by use Hdn.
Qed.

(** With the cell field unset and the other one set, the second test reads
    [None.data]. *)
Lemma check_cell_unset (s : State) (rn : nat) :
  training_data_cell_layer s = None →
  training_data_non_cell_layer s = Some rn →
  check_training_data_exists s = Raise AttributeError s.
Proof.
  intros Hc Hn. unfold check_training_data_exists. run_method.
  by rewrite Hc, Hn.
Qed.

(** With only the cell field set and no point in its layer, the test goes on
    to the unset non-cell field. *)
Lemma check_non_cell_unset (s : State) (rc : nat) (lc : Layer) :
  training_data_cell_layer s = Some rc → objs s !! rc = Some lc →
  data lc = [] →
  training_data_non_cell_layer s = None →
  check_training_data_exists s = Raise AttributeError s.
Proof.
  intros Hc Hlc Hd Hn. unfold check_training_data_exists. run_method.
  use Hc. use Hlc. use Hd. by use Hn.
Qed.

(** When both fields are set to live layers the check returns, with a
    dialog exactly when it returns false. *)
Lemma check_both_set (s : State) (rc rn : nat) (lc ln : Layer) :
  training_data_cell_layer s = Some rc → objs s !! rc = Some lc →
  training_data_non_cell_layer s = Some rn → objs s !! rn = Some ln →
  (check_training_data_exists s = Ok true s ∧
   (0 < length (data lc) ∨ 0 < length (data ln))) ∨
  (check_training_data_exists s =
     Ok false
       (set_dialogs (dialogs s ++ [("No training data", no_points_message)])
          s) ∧
   data lc = [] ∧ data ln = []).
Proof.
  intros Hc Hlc Hn Hln.
  destruct (data lc) as [|p l] eqn:Edc.
  - destruct (data ln) as [|p' l'] eqn:Edn.
    + right. split; [by eapply check_no_points|done].
    + left. split.
      * eapply check_non_cell_has_points; [done..|]. rewrite Edn. simpl. lia.
      * right. simpl. lia.
  - left. split.
    + eapply check_cell_has_points; [done..|]. rewrite Edc. simpl. lia.
    + left. simpl. lia.
Qed.

(** ** Exporting *)

Lemma extract_cubes_gate_closed (chosen : string) (s s' : State) :
  check_training_data_exists s = Ok false s' →
  extract_cubes chosen s = Ok tt s'.
Proof. intros H. unfold extract_cubes, bind. by rewrite H. Qed.

Lemma extract_cubes_gate_raises (chosen : string) (s s' : State) (e : Exn) :
  check_training_data_exists s = Raise e s' →
  extract_cubes chosen s = Raise e s'.
Proof. intros H. unfold extract_cubes, bind. by rewrite H. Qed.

Lemma extract_cubes_both_set (chosen : string) (s : State) (rc rn : nat)
    (lc ln : Layer) :
  training_data_cell_layer s = Some rc → objs s !! rc = Some lc →
  training_data_non_cell_layer s = Some rn → objs s !! rn = Some ln →
  check_training_data_exists s = Ok true s →
  extract_cubes chosen s = Ok tt (exported chosen lc ln s).
Proof.
  intros Hc Hlc Hn Hln Hchk. unfold extract_cubes, bind at 1. rewrite Hchk.
  unfold get_output_directory, convert_layers_to_cells. run_method.
  use Hc. use Hlc. use Hn. by use Hln.
Qed.

(** With the non-cell field unset the export stops in the conversion, after
    the check has passed. *)
Lemma extract_cubes_non_cell_unset (chosen : string) (s : State) (rc : nat)
    (lc : Layer) :
  training_data_cell_layer s = Some rc → objs s !! rc = Some lc →
  0 < length (data lc) →
  training_data_non_cell_layer s = None →
  check_training_data_exists s = Ok true s ∧
  extract_cubes chosen s =
    Raise AttributeError
      (set_cells_to_extract (Some (convert_layer_to_cells (data lc) true))
         (set_status_label "Extracting cubes"
            (set_output_directory (DPath (Path chosen)) s))).
Proof.
  intros Hc Hlc Hpos Hn.
  assert (Hchk : check_training_data_exists s = Ok true s)
    by by eapply check_cell_has_points.
  split; [done|]. unfold extract_cubes, bind at 1. rewrite Hchk.
  unfold get_output_directory, convert_layers_to_cells. run_method.
  use Hc. use Hlc. by use Hn.
Qed.

(** ** Selecting a training-data layer *)

Lemma tagged_metadata (t : CellType) (l : Layer) :
  metadata (tagged t l) !! "point_type" = Some (MPointType t) ∧
  metadata (tagged t l) !! "training_data" = Some (MBool true) ∧
  ∀ k, k ≠ "point_type" → k ≠ "training_data" →
       metadata (tagged t l) !! k = metadata l !! k.
Proof.
  unfold tagged. simpl. split_and!.
  - rewrite lookup_insert_ne by done. apply lookup_insert_eq.
  - apply lookup_insert_eq.
  - intros k H1 H2. by rewrite !lookup_insert_ne.
Qed.

(** [viewer.layers[t]] finds a layer as soon as one of the viewer has the
    name [t]. *)
Lemma layers_getitem_found (s : State) (t : string) :
  t ∈ viewer_names s →
  ∃ i r l, list_find (λ r, name <$> objs s !! r = Some t) (viewer_layers s)
             = Some (i, r) ∧
           r ∈ viewer_layers s ∧ objs s !! r = Some l ∧ name l = t.
Proof.
  intros Ht. unfold viewer_names in Ht.
  apply list_elem_of_fmap in Ht as (l & -> & Hl).
  apply list_elem_of_omap in Hl as (r & Hr & Hlr).
  destruct (list_find_elem_of (λ r, name <$> objs s !! r = Some (name l))
              (viewer_layers s) r Hr) as [[i r'] Hf].
  { by rewrite Hlr. }
  exists i, r'. pose proof Hf as Hf'.
  apply list_find_Some in Hf' as (Hi & HP & _).
  destruct (objs s !! r') as [l'|] eqn:E; [|done].
  exists l'. split_and!; [done|by eapply list_elem_of_lookup_2|done|].
  simpl in HP. by injection HP.
Qed.

Lemma layers_getitem_missing (s : State) (t : string) :
  t ∉ viewer_names s → layers_getitem t s = Raise (KeyError t) s.
Proof.
  intros Ht. run_method.
  destruct (list_find _ _) as [[i r]|] eqn:E; [|done].
  apply list_find_Some in E as (Hi & HP & _).
  destruct (objs s !! r) as [l|] eqn:El; [|done].
  exfalso. apply Ht. unfold viewer_names. apply list_elem_of_fmap.
  exists l. split; [simpl in HP; by injection HP|].
  apply list_elem_of_omap. exists r. split; [|done].
  by eapply list_elem_of_lookup_2.
Qed.

Lemma tag_store_effect (t : CellType) (r : nat) (l : Layer) (s s' : State) :
  objs s !! r = Some l →
  objs s' = <[r := tagged t l]> (objs s) →
  viewer_layers s' = viewer_layers s →
  selection_effect t r l s s'.
Proof.
  intros Hl Ho Hv. unfold selection_effect. split_and!; [done| |  |done].
  - exists (tagged t l). rewrite Ho.
    split; [apply list_lookup_insert_eq; by eapply lookup_lt_Some|].
    destruct (tagged_metadata t l) as (H1 & H2 & H3). by split_and!.
  - intros r' Hne. rewrite Ho. by apply list_lookup_insert_ne.
Qed.

Lemma set_training_data_cell_run (s : State) (i r : nat) (l : Layer) :
  currentText (training_data_cell_choice s) ≠ "" →
  list_find (λ r, name <$> objs s !! r =
                    Some (currentText (training_data_cell_choice s)))
    (viewer_layers s) = Some (i, r) →
  objs s !! r = Some l →
  set_training_data_cell s =
    Ok tt (set_objs (<[r := tagged CELL l]> (objs s))
             (set_training_data_cell_layer (Some r) s)).
Proof.
  intros Ht Hf Hl. unfold set_training_data_cell. run_method.
  rewrite bool_decide_eq_true_2 by done. use Hf. use Hl.
  rewrite list_lookup_insert_eq by by eapply lookup_lt_Some.
  by rewrite list_insert_insert_eq.
Qed.

Lemma set_training_data_non_cell_run (s : State) (i r : nat) (l : Layer) :
  currentText (training_data_non_cell_choice s) ≠ "" →
  list_find (λ r, name <$> objs s !! r =
                    Some (currentText (training_data_non_cell_choice s)))
    (viewer_layers s) = Some (i, r) →
  objs s !! r = Some l →
  set_training_data_non_cell s =
    Ok tt (set_objs (<[r := tagged UNKNOWN l]> (objs s))
             (set_training_data_non_cell_layer (Some r) s)).
Proof.
  intros Ht Hf Hl. unfold set_training_data_non_cell. run_method.
  rewrite bool_decide_eq_true_2 by done. use Hf. use Hl.
  rewrite list_lookup_insert_eq by by eapply lookup_lt_Some.
  by rewrite list_insert_insert_eq.
Qed.

(** An empty selection leaves everything as it is. *)
Lemma set_training_data_cell_empty (s : State) :
  currentText (training_data_cell_choice s) = "" →
  set_training_data_cell s = Ok tt s.
Proof. intros Ht. unfold set_training_data_cell. run_method. by use Ht. Qed.

(** C6: when the dropdown of a training-data handler (cell or non-cell) has
    a non-empty selection that names a layer of the viewer, the handler
    stores that layer in its field and writes the two keys [point_type] and
    [training_data] into that layer's metadata; its other keys, its name and
    data, and every other layer object are unchanged. *)
Theorem set_training_data_tags_selected_only (s : State) :
  (currentText (training_data_cell_choice s) ≠ "" →
   currentText (training_data_cell_choice s) ∈ viewer_names s →
   ∃ r l s', r ∈ viewer_layers s ∧
             name l = currentText (training_data_cell_choice s) ∧
             set_training_data_cell s = Ok tt s' ∧
             training_data_cell_layer s' = Some r ∧
             selection_effect CELL r l s s') ∧
  (currentText (training_data_non_cell_choice s) ≠ "" →
   currentText (training_data_non_cell_choice s) ∈ viewer_names s →
   ∃ r l s', r ∈ viewer_layers s ∧
             name l = currentText (training_data_non_cell_choice s) ∧
             set_training_data_non_cell s = Ok tt s' ∧
             training_data_non_cell_layer s' = Some r ∧
             selection_effect UNKNOWN r l s s').
Proof.
  split; intros Ht Hin;
    destruct (layers_getitem_found s _ Hin) as (i & r & l & Hf & Hr & Hl & Hn);
    exists r, l; eexists; (split; [done|]); (split; [done|]).
  - split; [by eapply set_training_data_cell_run|].
    split; [done|]. by apply tag_store_effect.
  - split; [by eapply set_training_data_non_cell_run|].
    split; [done|]. by apply tag_store_effect.
Qed.

(** ** Adding training data *)

Lemma setCurrentText_items (cb : ComboBox) (t : string) :
  items (setCurrentText cb t) = items cb.
Proof. unfold setCurrentText. by destruct (findText cb t). Qed.



Lemma add_points_run (d : list Point) (nm : string)
    (meta : gmap string MetaVal) (s : State) :
  add_points d nm meta s =
    Ok (length (objs s))
       (with_new_layer {| name := coerce_name (viewer_names s) nm;
                          pytype := Points; data := d; metadata := meta |} s).
Proof. reflexivity. Qed.

Lemma with_new_layer_store (l : Layer) (s : State) :
  objs (with_new_layer l s) = objs s ++ [l] ∧
  viewer_layers (with_new_layer l s) = viewer_layers s ++ [length (objs s)] ∧
  training_data_cell_layer (with_new_layer l s) = training_data_cell_layer s ∧
  training_data_non_cell_layer (with_new_layer l s) =
    training_data_non_cell_layer s.
Proof. by split_and!. Qed.

Lemma omap_lookup_app (store extra : list Layer) (refs : list nat) :
  Forall (λ r, r < length store) refs →
  omap (λ r, (store ++ extra) !! r) refs = omap (λ r, store !! r) refs.
Proof.
  induction 1 as [|r refs Hr _ IH]; [done|].
  change (omap (λ r, (store ++ extra) !! r) (r :: refs))
    with (match (store ++ extra) !! r with
          | Some y => y :: omap (λ r, (store ++ extra) !! r) refs
          | None => omap (λ r, (store ++ extra) !! r) refs
          end).
  by rewrite IH, lookup_app_l.
Qed.

Lemma with_new_layer_viewer_objs (l : Layer) (s : State) :
  refs_ok s → viewer_objs (with_new_layer l s) = viewer_objs s ++ [l].
Proof.
  intros Hok. unfold with_new_layer. rewrite update_layer_list_viewer_objs.
  unfold viewer_objs. simpl. rewrite omap_app, omap_lookup_app by done.
  f_equal. simpl. by rewrite list_lookup_middle.
Qed.

Lemma with_new_layer_refs_ok (l : Layer) (s : State) :
  refs_ok s → refs_ok (with_new_layer l s).
Proof.
  unfold refs_ok. simpl. intros Hok. rewrite length_app. simpl.
  apply Forall_app. split.
  - eapply Forall_impl; [done|]. simpl. lia.
  - repeat constructor. lia.
Qed.


Lemma bind_ok {A B} (m : M A) (k : A → M B) (s s' : State) (a : A) :
  m s = Ok a s' → bind m k s = k a s'.
Proof. intros H. unfold bind. by rewrite H. Qed.

Lemma bind_raise {A B} (m : M A) (k : A → M B) (s s' : State) (e : Exn) :
  m s = Raise e s' → bind m k s = Raise e s'.
Proof. intros H. unfold bind. by rewrite H. Qed.

Lemma add_cell_points_run (cell_name : string) (s : State) :
  add_cell_points cell_name s = Ok tt (after_add_points cell_name CELL s).
Proof. reflexivity. Qed.

Lemma add_non_cell_points_run (non_cell_name : string) (s : State) :
  add_non_cell_points non_cell_name s =
    Ok tt (after_add_points non_cell_name UNKNOWN s).
Proof. reflexivity. Qed.

Lemma select_both_run (cell_name non_cell_name : string) (s : State) :
  bind
    (modify (λ s, set_training_data_cell_choice
                    (setCurrentText (training_data_cell_choice s) cell_name)
                    s))
    (λ _, modify (λ s, set_training_data_non_cell_choice
                         (setCurrentText (training_data_non_cell_choice s)
                            non_cell_name) s)) s =
  Ok tt (select_both cell_name non_cell_name s).
Proof. reflexivity. Qed.

Lemma add_training_data_run (cell_name non_cell_name : string) (s : State) :
  add_training_data cell_name non_cell_name s =
    Ok tt (select_both cell_name non_cell_name
             (after_add_points non_cell_name UNKNOWN
                (after_add_points cell_name CELL s))).
Proof.
  unfold add_training_data.
  rewrite (bind_ok _ _ _ _ _ (add_cell_points_run cell_name s)).
  rewrite (bind_ok _ _ _ _ _
             (add_non_cell_points_run non_cell_name
                (after_add_points cell_name CELL s))).
  apply select_both_run.
Qed.

Lemma set_training_data_cell_layer_viewer_objs (v : option nat) (s : State) :
  viewer_objs (set_training_data_cell_layer v s) = viewer_objs s.
Proof. reflexivity. Qed.

Lemma set_training_data_cell_layer_refs_ok (v : option nat) (s : State) :
  refs_ok s → refs_ok (set_training_data_cell_layer v s).
Proof. done. Qed.

Lemma after_add_points_store (nm : string) (t : CellType) (s : State) :
  objs (after_add_points nm t s) =
    objs s ++ [new_points_layer (coerce_name (viewer_names s) nm) t] ∧
  viewer_layers (after_add_points nm t s) =
    viewer_layers s ++ [length (objs s)] ∧
  training_data_cell_layer (after_add_points nm t s) =
    Some (length (objs s)) ∧
  training_data_non_cell_layer (after_add_points nm t s) =
    training_data_non_cell_layer s.
Proof. by split_and!. Qed.


Lemma after_add_points_viewer_objs (nm : string) (t : CellType) (s : State) :
  refs_ok s →
  viewer_objs (after_add_points nm t s) =
    viewer_objs s ++ [new_points_layer (coerce_name (viewer_names s) nm) t].
Proof.
  intros Hok. unfold after_add_points.
  rewrite set_training_data_cell_layer_viewer_objs.
  by apply with_new_layer_viewer_objs.
Qed.

Lemma after_add_points_refs_ok (nm : string) (t : CellType) (s : State) :
  refs_ok s → refs_ok (after_add_points nm t s).
Proof.
  intros Hok. unfold after_add_points.
  apply set_training_data_cell_layer_refs_ok.
  by apply with_new_layer_refs_ok.
Qed.

Lemma select_both_frame (cell_name non_cell_name : string) (s : State) :
  objs (select_both cell_name non_cell_name s) = objs s ∧
  viewer_layers (select_both cell_name non_cell_name s) = viewer_layers s ∧
  training_data_cell_layer (select_both cell_name non_cell_name s) =
    training_data_cell_layer s ∧
  training_data_non_cell_layer (select_both cell_name non_cell_name s) =
    training_data_non_cell_layer s ∧
  training_data_cell_choice (select_both cell_name non_cell_name s) =
    setCurrentText (training_data_cell_choice s) cell_name ∧
  training_data_non_cell_choice (select_both cell_name non_cell_name s) =
    setCurrentText (training_data_non_cell_choice s) non_cell_name.
Proof. by split_and!. Qed.

Lemma select_both_viewer_objs (cell_name non_cell_name : string) (s : State) :
  viewer_objs (select_both cell_name non_cell_name s) = viewer_objs s.
Proof. reflexivity. Qed.



(** C8: [add_training_data] assigns both new layers, one after the other, to
    the field [training_data_cell_layer], which ends up referring to the
    second, non-cell layer; the method itself never assigns
    [training_data_non_cell_layer], which keeps the value it had. *)
Theorem add_training_data_assigns_cell_field (cell_name non_cell_name : string)
    (s : State) :
  ∃ s1 s2 s3,
    add_cell_points cell_name s = Ok tt s1 ∧
    add_non_cell_points non_cell_name s1 = Ok tt s2 ∧
    add_training_data cell_name non_cell_name s = Ok tt s3 ∧
    training_data_cell_layer s1 = Some (length (objs s)) ∧
    training_data_cell_layer s2 = Some (S (length (objs s))) ∧
    training_data_cell_layer s3 = Some (S (length (objs s))) ∧
    objs s3 !! length (objs s) =
      Some (new_points_layer (coerce_name (viewer_names s) cell_name) CELL) ∧
    objs s3 !! S (length (objs s)) =
      Some (new_points_layer (coerce_name (viewer_names s1) non_cell_name)
              UNKNOWN) ∧
    training_data_non_cell_layer s1 = training_data_non_cell_layer s ∧
    training_data_non_cell_layer s2 = training_data_non_cell_layer s ∧
    training_data_non_cell_layer s3 = training_data_non_cell_layer s.
Proof.
  exists (after_add_points cell_name CELL s),
    (after_add_points non_cell_name UNKNOWN
       (after_add_points cell_name CELL s)),
    (select_both cell_name non_cell_name
       (after_add_points non_cell_name UNKNOWN
          (after_add_points cell_name CELL s))).
  destruct (after_add_points_store cell_name CELL s) as (Ho1 & Hv1 & Hc1 & Hn1).
  destruct (after_add_points_store non_cell_name UNKNOWN
              (after_add_points cell_name CELL s)) as (Ho2 & Hv2 & Hc2 & Hn2).
  destruct (select_both_frame cell_name non_cell_name
              (after_add_points non_cell_name UNKNOWN
                 (after_add_points cell_name CELL s)))
    as (Ho3 & Hv3 & Hc3 & Hn3 & _).
  assert (Hlen : length (objs (after_add_points cell_name CELL s)) =
                 S (length (objs s))).
  { rewrite Ho1, length_app. simpl. lia. }
  split_and!.
  - apply add_cell_points_run.
  - apply add_non_cell_points_run.
  - apply add_training_data_run.
  - done.
  - by rewrite Hc2, Hlen.
  - by rewrite Hc3, Hc2, Hlen.
  - rewrite Ho3, Ho2, Ho1, <- app_assoc. by apply list_lookup_middle.
  - rewrite Ho3, Ho2. by apply list_lookup_middle.
  - done.
  - by rewrite Hn2.
  - by rewrite Hn3, Hn2.
Qed.



(** ** Distinct names *)

Lemma add_training_data_viewer_names (cell_name non_cell_name : string)
    (s : State) :
  refs_ok s →
  viewer_names
    (select_both cell_name non_cell_name
       (after_add_points non_cell_name UNKNOWN
          (after_add_points cell_name CELL s))) =
  viewer_names s ++
    [coerce_name (viewer_names s) cell_name;
     coerce_name
       (viewer_names s ++ [coerce_name (viewer_names s) cell_name])
       non_cell_name].
Proof.
  intros Hok.
  pose proof (after_add_points_viewer_objs cell_name CELL s Hok) as Hvo1.
  pose proof (after_add_points_refs_ok cell_name CELL s Hok) as Hok1.
  remember (after_add_points cell_name CELL s) as s1 eqn:E1. clear E1.
  pose proof (after_add_points_viewer_objs non_cell_name UNKNOWN s1 Hok1)
    as Hvo2.
  remember (after_add_points non_cell_name UNKNOWN s1) as s2 eqn:E2. clear E2.
  unfold viewer_names in *.
  rewrite select_both_viewer_objs, Hvo2, Hvo1, !fmap_app, <- app_assoc.
  reflexivity.
Qed.

(** A viewer that never hands out a name in use keeps the names distinct
    through [add_training_data]. *)
Lemma add_training_data_names_distinct (cell_name non_cell_name : string)
    (s s' : State) :
  (∀ ns n, coerce_name ns n ∉ ns) →
  refs_ok s → NoDup (viewer_names s) →
  add_training_data cell_name non_cell_name s = Ok tt s' →
  NoDup (viewer_names s').
Proof.
  intros Hfresh Hok Hnd Hrun. rewrite add_training_data_run in Hrun.
  injection Hrun as <-. rewrite add_training_data_viewer_names by done.
  change (viewer_names s ++
          [coerce_name (viewer_names s) cell_name;
           coerce_name
             (viewer_names s ++ [coerce_name (viewer_names s) cell_name])
             non_cell_name])
    with (viewer_names s ++
          [coerce_name (viewer_names s) cell_name] ++
          [coerce_name
             (viewer_names s ++ [coerce_name (viewer_names s) cell_name])
             non_cell_name]).
  rewrite app_assoc. apply NoDup_app. split_and!.
  - apply NoDup_app. split_and!; [done| |apply NoDup_singleton].
    intros x Hx Hx'. apply list_elem_of_singleton in Hx' as ->.
    by apply (Hfresh (viewer_names s) cell_name).
  - intros x Hx Hx'. apply list_elem_of_singleton in Hx' as ->.
    by apply (Hfresh
                (viewer_names s ++ [coerce_name (viewer_names s) cell_name])
                non_cell_name).
  - apply NoDup_singleton.
Qed.

(** ** What a method keeps *)

Lemma same_viewer_refl (s : State) : same_viewer s s.
Proof. unfold same_viewer. by split_and!. Qed.

Lemma same_viewer_trans (s1 s2 s3 : State) :
  same_viewer s1 s2 → same_viewer s2 s3 → same_viewer s1 s3.
Proof.
  unfold same_viewer.
  intros (A1 & A2 & A3 & A4 & A5 & A6 & A7 & A8 & A9 & A10)
         (B1 & B2 & B3 & B4 & B5 & B6 & B7 & B8 & B9 & B10).
  split_and!; congruence.
Qed.

Section Keeps.

Variable R : State → State → Prop.
Hypothesis R_refl : ∀ s, R s s.
Hypothesis R_trans : ∀ s1 s2 s3, R s1 s2 → R s2 s3 → R s1 s3.

Lemma keeps_ret {A} (a : A) : keeps R (ret a).
Proof. intros s. apply R_refl. Qed.

Lemma keeps_raise {A} (e : Exn) : keeps R (raise (A := A) e).
Proof. intros s. apply R_refl. Qed.

Lemma keeps_modify (f : State → State) :
  (∀ s, R s (f s)) → keeps R (modify f).
Proof. intros Hf s. apply Hf. Qed.

Lemma keeps_bind {A B} (m : M A) (k : A → M B) :
  keeps R m → (∀ a, keeps R (k a)) → keeps R (bind m k).
Proof.
  intros Hm Hk s. unfold bind. specialize (Hm s).
  destruct (m s) as [a s'|e s']; simpl in *; [|done].
  eapply R_trans; [done|apply Hk].
Qed.

Lemma keeps_get_bind {B} (k : State → M B) :
  (∀ s0, keeps R (k s0)) → keeps R (bind get k).
Proof. intros Hk. apply keeps_bind; [|done]. intros s. apply R_refl. Qed.

Lemma keeps_getattr_data (obj : option nat) : keeps R (getattr_data obj).
Proof.
  unfold getattr_data. apply keeps_get_bind. intros s0.
  destruct obj as [r|]; [|apply keeps_raise].
  destruct (objs s0 !! r); [apply keeps_ret|apply keeps_raise].
Qed.

Lemma keeps_display_info (title message : string) :
  (∀ s v, R s (set_dialogs v s)) → keeps R (display_info title message).
Proof. intros H. apply keeps_modify. intros s. apply H. Qed.

Lemma keeps_check_training_data_exists :
  (∀ s v, R s (set_dialogs v s)) → keeps R check_training_data_exists.
Proof.
  intros Hd. unfold check_training_data_exists.
  apply keeps_get_bind. intros s0.
  destruct (negb _).
  { apply keeps_bind; [by apply keeps_display_info|intros; apply keeps_ret]. }
  apply keeps_bind; [apply keeps_getattr_data|]. intros d.
  destruct (bool_decide _); [apply keeps_ret|].
  apply keeps_bind; [apply keeps_getattr_data|]. intros d'.
  destruct (bool_decide _); [apply keeps_ret|].
  apply keeps_bind; [by apply keeps_display_info|intros; apply keeps_ret].
Qed.

Lemma keeps_get_output_directory (chosen : string) :
  (∀ s v, R s (set_status_label v s)) →
  (∀ s v, R s (set_output_directory v s)) →
  keeps R (get_output_directory chosen).
Proof.
  intros Hs Ho. unfold get_output_directory.
  apply keeps_bind; [by apply keeps_modify|]. intros _.
  apply keeps_bind; [by apply keeps_modify|]. intros _.
  apply keeps_get_bind. intros s0.
  destruct (output_directory s0);
    [apply keeps_raise|by apply keeps_modify..].
Qed.

Lemma keeps_convert_layers_to_cells :
  (∀ s v, R s (set_cells_to_extract v s)) →
  (∀ s v, R s (set_non_cells_to_extract v s)) →
  keeps R convert_layers_to_cells.
Proof.
  intros Hc Hn. unfold convert_layers_to_cells.
  apply keeps_get_bind. intros s0.
  apply keeps_bind; [apply keeps_getattr_data|]. intros d.
  apply keeps_bind; [by apply keeps_modify|]. intros _.
  apply keeps_get_bind. intros s1.
  apply keeps_bind; [apply keeps_getattr_data|]. intros d'.
  by apply keeps_modify.
Qed.

Lemma keeps_extract_cubes (chosen : string) :
  (∀ s v, R s (set_dialogs v s)) →
  (∀ s v, R s (set_status_label v s)) →
  (∀ s v, R s (set_output_directory v s)) →
  (∀ s v, R s (set_cells_to_extract v s)) →
  (∀ s v, R s (set_non_cells_to_extract v s)) →
  keeps R (extract_cubes chosen).
Proof.
  intros Hd Hs Ho Hc Hn. unfold extract_cubes.
  apply keeps_bind; [by apply keeps_check_training_data_exists|].
  intros [|]; [|apply keeps_ret].
  apply keeps_bind; [by apply keeps_get_output_directory|]. intros _.
  apply keeps_bind; [by apply keeps_modify|]. intros _.
  apply keeps_bind; [by apply keeps_convert_layers_to_cells|]. intros _.
  by apply keeps_modify.
Qed.

End Keeps.

(** X1: an export, whether it returns or raises, leaves the viewer as it
    was: the layer objects with their data and metadata, the collection,
    the four layer fields and the four dropdowns.  Only the dialogs, the
    status label, the output directory and the two record lists can
    differ. *)
Theorem extract_cubes_keeps_viewer (chosen : string) (s : State) :
  same_viewer s (res_state (extract_cubes chosen s)).
Proof.
  apply (keeps_extract_cubes same_viewer same_viewer_refl same_viewer_trans);
    intros s0 v; unfold same_viewer; by split_and!.
Qed.

(** ** The outcomes of the check *)

Lemma check_cell_bad_ref (s : State) (rc : nat) :
  training_data_cell_layer s = Some rc → objs s !! rc = None →
  check_training_data_exists s = Raise BadRef s.
Proof.
  intros Hc Hlc. unfold check_training_data_exists. run_method.
  use Hc. by use Hlc.
Qed.

Lemma check_non_cell_bad_ref (s : State) (rc rn : nat) (lc : Layer) :
  training_data_cell_layer s = Some rc → objs s !! rc = Some lc →
  data lc = [] →
  training_data_non_cell_layer s = Some rn → objs s !! rn = None →
  check_training_data_exists s = Raise BadRef s.
Proof.
  intros Hc Hlc Hd Hn Hln. unfold check_training_data_exists. run_method.
  use Hc. use Hlc. use Hd. use Hn. by use Hln.
Qed.

(** The eight ways through [check_training_data_exists]. *)
Lemma check_training_data_exists_cases (s : State) :
  (training_data_cell_layer s = None ∧
   training_data_non_cell_layer s = None ∧
   check_training_data_exists s =
     Ok false
       (set_dialogs (dialogs s ++ [("No training data", no_layers_message)])
          s)) ∨
  (training_data_cell_layer s = None ∧
   is_Some (training_data_non_cell_layer s) ∧
   check_training_data_exists s = Raise AttributeError s) ∨
  (∃ rc, training_data_cell_layer s = Some rc ∧ objs s !! rc = None ∧
         check_training_data_exists s = Raise BadRef s) ∨
  (∃ rc lc, training_data_cell_layer s = Some rc ∧ objs s !! rc = Some lc ∧
            0 < length (data lc) ∧
            check_training_data_exists s = Ok true s) ∨
  (∃ rc lc, training_data_cell_layer s = Some rc ∧ objs s !! rc = Some lc ∧
            data lc = [] ∧ training_data_non_cell_layer s = None ∧
            check_training_data_exists s = Raise AttributeError s) ∨
  (∃ rc lc rn, training_data_cell_layer s = Some rc ∧
               objs s !! rc = Some lc ∧ data lc = [] ∧
               training_data_non_cell_layer s = Some rn ∧
               objs s !! rn = None ∧
               check_training_data_exists s = Raise BadRef s) ∨
  (∃ rc lc rn ln, training_data_cell_layer s = Some rc ∧
                  objs s !! rc = Some lc ∧ data lc = [] ∧
                  training_data_non_cell_layer s = Some rn ∧
                  objs s !! rn = Some ln ∧ 0 < length (data ln) ∧
                  check_training_data_exists s = Ok true s) ∨
  (∃ rc lc rn ln, training_data_cell_layer s = Some rc ∧
                  objs s !! rc = Some lc ∧ data lc = [] ∧
                  training_data_non_cell_layer s = Some rn ∧
                  objs s !! rn = Some ln ∧ data ln = [] ∧
                  check_training_data_exists s =
                    Ok false
                      (set_dialogs
                         (dialogs s ++
                            [("No training data", no_points_message)]) s)).
Proof.
  destruct (training_data_cell_layer s) as [rc|] eqn:Hc.
  - do 2 right.
    destruct (objs s !! rc) as [lc|] eqn:Hlc;
      [right|left; exists rc; eauto using check_cell_bad_ref].
    destruct (data lc) as [|p d] eqn:Hd.
    + right.
      destruct (training_data_non_cell_layer s) as [rn|] eqn:Hn;
        [right|left; exists rc, lc; eauto 10 using check_non_cell_unset].
      destruct (objs s !! rn) as [ln|] eqn:Hln;
        [right|left; exists rc, lc, rn;
               eauto 10 using check_non_cell_bad_ref].
      destruct (data ln) as [|p' d'] eqn:Hdn.
      * right. exists rc, lc, rn, ln. eauto 10 using check_no_points.
      * left. exists rc, lc, rn, ln. split_and!; try done.
        -- rewrite Hdn. simpl. lia.
        -- eapply check_non_cell_has_points; eauto.
           rewrite Hdn. simpl. lia.
    + left. exists rc, lc. split_and!; try done.
      * rewrite Hd. simpl. lia.
      * eapply check_cell_has_points; eauto. rewrite Hd. simpl. lia.
  - destruct (training_data_non_cell_layer s) as [rn|] eqn:Hn.
    + right. left. split_and!; eauto using check_cell_unset.
    + left. split_and!; eauto using check_no_layers.
Qed.

(** X2: [check_training_data_exists] returns true exactly when the cell
    field holds a layer with a point, or holds a layer and the non-cell
    field holds a layer with a point; the state is then left untouched and
    no dialog is shown.  A non-cell layer with points does not suffice when
    the cell field is unset. *)
Theorem check_training_data_exists_true_iff (s s' : State) :
  check_training_data_exists s = Ok true s' ↔
  s' = s ∧
  ∃ rc lc, training_data_cell_layer s = Some rc ∧ objs s !! rc = Some lc ∧
           (0 < length (data lc) ∨
            ∃ rn ln, training_data_non_cell_layer s = Some rn ∧
                     objs s !! rn = Some ln ∧ 0 < length (data ln)).
Proof.
  split.
  - intros Hrun.
    destruct (check_training_data_exists_cases s)
      as [(_ & _ & H)|[(_ & _ & H)|[(rc & _ & _ & H)|[(rc & lc & Hc & Hlc & Hp & H)
         |[(rc & lc & _ & _ & _ & _ & H)|[(rc & lc & rn & _ & _ & _ & _ & _ & H)
         |[(rc & lc & rn & ln & Hc & Hlc & _ & Hn & Hln & Hp & H)
         |(rc & lc & rn & ln & _ & _ & _ & _ & _ & _ & H)]]]]]]];
      rewrite H in Hrun; try discriminate; injection Hrun as <-.
    + split; [done|]. exists rc, lc. auto.
    + split; [done|]. exists rc, lc. split_and!; [done..|].
      right. exists rn, ln. auto.
  - intros (-> & rc & lc & Hc & Hlc & [Hp|(rn & ln & Hn & Hln & Hp)]).
    + by eapply check_cell_has_points.
    + by eapply check_non_cell_has_points.
Qed.

(** X3: [check_training_data_exists] raises [AttributeError] exactly when
    one of the two fields is unset and the test reaches it: the cell field
    is unset while the non-cell field is set, or the cell field holds a
    layer without points while the non-cell field is unset.  The state is
    left untouched: no dialog is shown. *)
Theorem check_training_data_exists_attribute_error_iff (s s' : State) :
  check_training_data_exists s = Raise AttributeError s' ↔
  s' = s ∧
  ((training_data_cell_layer s = None ∧
    is_Some (training_data_non_cell_layer s)) ∨
   (∃ rc lc, training_data_cell_layer s = Some rc ∧
             objs s !! rc = Some lc ∧ data lc = [] ∧
             training_data_non_cell_layer s = None)).
Proof.
  split.
  - intros Hrun.
    destruct (check_training_data_exists_cases s)
      as [(_ & _ & H)|[(Hc & Hn & H)|[(rc & _ & _ & H)|[(rc & lc & _ & _ & _ & H)
         |[(rc & lc & Hc & Hlc & Hd & Hn & H)
         |[(rc & lc & rn & _ & _ & _ & _ & _ & H)
         |[(rc & lc & rn & ln & _ & _ & _ & _ & _ & _ & H)
         |(rc & lc & rn & ln & _ & _ & _ & _ & _ & _ & H)]]]]]]];
      rewrite H in Hrun; try discriminate; injection Hrun as <-.
    + split; [done|]. by left.
    + split; [done|]. right. exists rc, lc. auto.
  - intros (-> & [(Hc & [rn Hn])|(rc & lc & Hc & Hlc & Hd & Hn)]).
    + by eapply check_cell_unset.
    + by eapply check_non_cell_unset.
Qed.

(** X4: [check_training_data_exists] never changes anything but the list of
    dialogs, to which it adds at most one; it adds one exactly when it
    returns false, and none when it returns true or raises. *)
Theorem check_training_data_exists_read_only (s : State) :
  match check_training_data_exists s with
  | Ok true s' => s' = s
  | Ok false s' =>
      ∃ message, s' = set_dialogs (dialogs s ++ [("No training data", message)]) s
  | Raise _ s' => s' = s
  end.
Proof.
  destruct (check_training_data_exists_cases s)
    as [(_ & _ & H)|[(_ & _ & H)|[(rc & _ & _ & H)|[(rc & lc & _ & _ & _ & H)
       |[(rc & lc & _ & _ & _ & _ & H)|[(rc & lc & rn & _ & _ & _ & _ & _ & H)
       |[(rc & lc & rn & ln & _ & _ & _ & _ & _ & _ & H)
       |(rc & lc & rn & ln & _ & _ & _ & _ & _ & _ & H)]]]]]]];
    rewrite H; eauto.
Qed.

(** ** The outcomes of an export *)

Lemma extract_cubes_open (chosen : string) (s : State) :
  check_training_data_exists s = Ok true s →
  extract_cubes chosen s =
    match convert_layers_to_cells
            (set_status_label "Extracting cubes"
               (set_output_directory (DPath (Path chosen)) s)) with
    | Ok _ s2 => Ok tt (set_status_label "Ready" s2)
    | Raise e s2 => Raise e s2
    end.
Proof.
  intros Hchk. unfold extract_cubes, bind at 1. rewrite Hchk.
  reflexivity.
Qed.

(** The conversion touches the two record lists only. *)
Lemma convert_layers_to_cells_keeps_rest (s : State) :
  let s' := res_state (convert_layers_to_cells s) in
  status_label s' = status_label s ∧ dialogs s' = dialogs s ∧
  output_directory s' = output_directory s.
Proof.
  apply (keeps_convert_layers_to_cells
           (λ s s', status_label s' = status_label s ∧
                    dialogs s' = dialogs s ∧
                    output_directory s' = output_directory s)).
  - done.
  - intros s1 s2 s3 (A1 & A2 & A3) (B1 & B2 & B3). split_and!; congruence.
  - done.
  - done.
Qed.

(** X5: with both training fields set to layers of which at least one
    holds a point, [extract_cubes] returns without showing a dialog: the
    output directory is the path of the chosen string, the cell records are
    those of the cell layer labelled cell, the non-cell records those of the
    non-cell layer labelled unknown, the status label ends at "Ready", and
    nothing else changes. *)
Theorem extract_cubes_exports_both_layers (chosen : string) (s : State)
    (rc rn : nat) (lc ln : Layer) :
  training_data_cell_layer s = Some rc → objs s !! rc = Some lc →
  training_data_non_cell_layer s = Some rn → objs s !! rn = Some ln →
  0 < length (data lc) ∨ 0 < length (data ln) →
  ∃ s', extract_cubes chosen s = Ok tt s' ∧
        s' = exported chosen lc ln s ∧
        status_label s' = "Ready" ∧
        output_directory s' = DPath (Path chosen) ∧
        cells_to_extract s' = Some (convert_layer_to_cells (data lc) true) ∧
        non_cells_to_extract s' =
          Some (convert_layer_to_cells (data ln) false) ∧
        length <$> cells_to_extract s' = Some (length (data lc)) ∧
        length <$> non_cells_to_extract s' = Some (length (data ln)) ∧
        dialogs s' = dialogs s.
Proof.
  intros Hc Hlc Hn Hln Hp.
  assert (Hchk : check_training_data_exists s = Ok true s).
  { destruct Hp; [by eapply check_cell_has_points|
                  by eapply check_non_cell_has_points]. }
  exists (exported chosen lc ln s). split_and!; try done.
  - by eapply extract_cubes_both_set.
  - simpl. f_equal. apply length_fmap.
  - simpl. f_equal. apply length_fmap.
Qed.

(** X6: how an export can end.  If it returns, either the check had passed
    and the status label is "Ready", the directory is the chosen one and no
    dialog was shown, or the check had failed and only its dialog was added.
    If it raises, no dialog was shown, and either the check itself raised
    and nothing changed, or the check had passed and the status label is
    left at "Extracting cubes" with the directory already replaced. *)
Theorem extract_cubes_outcomes (chosen : string) (s : State) :
  match extract_cubes chosen s with
  | Ok _ s' =>
      (check_training_data_exists s = Ok true s ∧
       status_label s' = "Ready" ∧ dialogs s' = dialogs s ∧
       output_directory s' = DPath (Path chosen)) ∨
      (check_training_data_exists s = Ok false s' ∧
       status_label s' = status_label s ∧
       output_directory s' = output_directory s ∧
       cells_to_extract s' = cells_to_extract s ∧
       non_cells_to_extract s' = non_cells_to_extract s ∧
       length (dialogs s') = S (length (dialogs s)))
  | Raise e s' =>
      dialogs s' = dialogs s ∧
      ((check_training_data_exists s = Raise e s ∧ s' = s) ∨
       (check_training_data_exists s = Ok true s ∧
        status_label s' = "Extracting cubes" ∧
        output_directory s' = DPath (Path chosen)))
  end.
Proof.
  assert (Hopen : check_training_data_exists s = Ok true s →
    match extract_cubes chosen s with
    | Ok _ s' =>
        status_label s' = "Ready" ∧ dialogs s' = dialogs s ∧
        output_directory s' = DPath (Path chosen)
    | Raise e s' =>
        dialogs s' = dialogs s ∧ status_label s' = "Extracting cubes" ∧
        output_directory s' = DPath (Path chosen)
    end).
  { intros Hchk. rewrite (extract_cubes_open _ _ Hchk).
    pose proof (convert_layers_to_cells_keeps_rest
                  (set_status_label "Extracting cubes"
                     (set_output_directory (DPath (Path chosen)) s)))
      as (Hs & Hd & Ho).
    destruct (convert_layers_to_cells _) as [[] s2|e s2]; simpl in *.
    - by rewrite Hd, Ho.
    - by rewrite Hs, Hd, Ho. }
  assert (Hclosed : ∀ message,
    check_training_data_exists s =
      Ok false (set_dialogs (dialogs s ++ [("No training data", message)]) s) →
    match extract_cubes chosen s with
    | Ok _ s' =>
        check_training_data_exists s = Ok false s' ∧
        status_label s' = status_label s ∧
        output_directory s' = output_directory s ∧
        cells_to_extract s' = cells_to_extract s ∧
        non_cells_to_extract s' = non_cells_to_extract s ∧
        length (dialogs s') = S (length (dialogs s))
    | Raise e s' => False
    end).
  { intros message Hchk. rewrite (extract_cubes_gate_closed _ _ _ Hchk).
    split_and!; try done. simpl. rewrite length_app. simpl. lia. }
  assert (Hraise : ∀ e,
    check_training_data_exists s = Raise e s →
    extract_cubes chosen s = Raise e s).
  { intros e Hchk. by apply extract_cubes_gate_raises. }
  destruct (check_training_data_exists_cases s)
    as [(_ & _ & H)|[(_ & _ & H)|[(rc & _ & _ & H)|[(rc & lc & _ & _ & _ & H)
       |[(rc & lc & _ & _ & _ & _ & H)|[(rc & lc & rn & _ & _ & _ & _ & _ & H)
       |[(rc & lc & rn & ln & _ & _ & _ & _ & _ & _ & H)
       |(rc & lc & rn & ln & _ & _ & _ & _ & _ & _ & H)]]]]]]].
  - specialize (Hclosed _ H).
    destruct (extract_cubes chosen s); [by right|done].
  - rewrite (Hraise _ H). split; [done|]. by left.
  - rewrite (Hraise _ H). split; [done|]. by left.
  - specialize (Hopen H).
    destruct (extract_cubes chosen s);
      [left; by split|destruct Hopen as (? & ? & ?); split; [done|by right]].
  - rewrite (Hraise _ H). split; [done|]. by left.
  - rewrite (Hraise _ H). split; [done|]. by left.
  - specialize (Hopen H).
    destruct (extract_cubes chosen s);
      [left; by split|destruct Hopen as (? & ? & ?); split; [done|by right]].
  - specialize (Hclosed _ H).
    destruct (extract_cubes chosen s); [by right|done].
Qed.

(** X7: on a panel that has just been constructed, over any viewer, an
    export shows the "no training data layers" dialog and does nothing
    else: the directory dialog is not opened, the status label stays at
    "Ready" and no field changes. *)
Theorem extract_cubes_on_new_panel (store : list Layer) (layers : list nat)
    (cfg : Config) (chosen : string) :
  extract_cubes chosen (__init__ store layers cfg) =
    Ok tt (set_dialogs [("No training data", no_layers_message)]
             (__init__ store layers cfg)) ∧
  status_label (__init__ store layers cfg) = "Ready" ∧
  output_directory (__init__ store layers cfg) = DNone.
Proof.
  split; [|done].
  apply extract_cubes_gate_closed.
  apply (check_no_layers (__init__ store layers cfg)); reflexivity.
Qed.

(** ** Selection handlers: the other cases *)

Lemma set_signal_image_run (s : State) (i r : nat) :
  currentText (signal_image_choice s) ≠ "" →
  list_find (λ r, name <$> objs s !! r =
                    Some (currentText (signal_image_choice s)))
    (viewer_layers s) = Some (i, r) →
  set_signal_image s = Ok tt (set_signal_layer (Some r) s).
Proof.
  intros Ht Hf. unfold set_signal_image. run_method.
  rewrite bool_decide_eq_true_2 by done. by use Hf.
Qed.

Lemma set_background_image_run (s : State) (i r : nat) :
  currentText (background_image_choice s) ≠ "" →
  list_find (λ r, name <$> objs s !! r =
                    Some (currentText (background_image_choice s)))
    (viewer_layers s) = Some (i, r) →
  set_background_image s = Ok tt (set_background_layer (Some r) s).
Proof.
  intros Ht Hf. unfold set_background_image. run_method.
  rewrite bool_decide_eq_true_2 by done. by use Hf.
Qed.

(** X8: when the signal (or background) dropdown has a non-empty selection
    that names a layer of the viewer, its handler stores the first layer of
    that name in the field [signal_layer] (or [background_layer]) and
    changes nothing else: unlike the training-data handlers it writes no
    metadata. *)
Theorem set_image_sets_field_only (s : State) :
  (currentText (signal_image_choice s) ≠ "" →
   currentText (signal_image_choice s) ∈ viewer_names s →
   ∃ r l, r ∈ viewer_layers s ∧ objs s !! r = Some l ∧
          name l = currentText (signal_image_choice s) ∧
          set_signal_image s = Ok tt (set_signal_layer (Some r) s)) ∧
  (currentText (background_image_choice s) ≠ "" →
   currentText (background_image_choice s) ∈ viewer_names s →
   ∃ r l, r ∈ viewer_layers s ∧ objs s !! r = Some l ∧
          name l = currentText (background_image_choice s) ∧
          set_background_image s = Ok tt (set_background_layer (Some r) s)).
Proof.
  split; intros Ht Hin;
    destruct (layers_getitem_found s _ Hin) as (i & r & l & Hf & Hr & Hl & Hn);
    exists r, l; split_and!; try done.
  - by eapply set_signal_image_run.
  - by eapply set_background_image_run.
Qed.

Lemma list_find_missing (s : State) (t : string) :
  t ∉ viewer_names s →
  list_find (λ r, name <$> objs s !! r = Some t) (viewer_layers s) = None.
Proof.
  intros Ht. pose proof (layers_getitem_missing s t Ht) as H.
  unfold layers_getitem, bind, get in H.
  destruct (list_find _ _) as [[i r]|]; [discriminate|done].
Qed.

(** X9: each of the four selection handlers does nothing when its dropdown
    has no selection, and raises [KeyError] before any assignment when the
    selection names no layer of the viewer: the fields and every layer's
    metadata are then as before. *)
Theorem selection_handlers_empty_or_stale (s : State) :
  (currentText (signal_image_choice s) = "" →
     set_signal_image s = Ok tt s) ∧
  (currentText (background_image_choice s) = "" →
     set_background_image s = Ok tt s) ∧
  (currentText (training_data_cell_choice s) = "" →
     set_training_data_cell s = Ok tt s) ∧
  (currentText (training_data_non_cell_choice s) = "" →
     set_training_data_non_cell s = Ok tt s) ∧
  (currentText (signal_image_choice s) ≠ "" →
   currentText (signal_image_choice s) ∉ viewer_names s →
     set_signal_image s =
       Raise (KeyError (currentText (signal_image_choice s))) s) ∧
  (currentText (background_image_choice s) ≠ "" →
   currentText (background_image_choice s) ∉ viewer_names s →
     set_background_image s =
       Raise (KeyError (currentText (background_image_choice s))) s) ∧
  (currentText (training_data_cell_choice s) ≠ "" →
   currentText (training_data_cell_choice s) ∉ viewer_names s →
     set_training_data_cell s =
       Raise (KeyError (currentText (training_data_cell_choice s))) s) ∧
  (currentText (training_data_non_cell_choice s) ≠ "" →
   currentText (training_data_non_cell_choice s) ∉ viewer_names s →
     set_training_data_non_cell s =
       Raise (KeyError (currentText (training_data_non_cell_choice s))) s).
Proof.
  split_and!.
  - intros Ht. unfold set_signal_image. run_method. by use Ht.
  - intros Ht. unfold set_background_image. run_method. by use Ht.
  - intros Ht. unfold set_training_data_cell. run_method. by use Ht.
  - intros Ht. unfold set_training_data_non_cell. run_method. by use Ht.
  - intros Ht Hin. unfold set_signal_image. run_method.
    rewrite bool_decide_eq_true_2 by done.
    by use (list_find_missing s _ Hin).
  - intros Ht Hin. unfold set_background_image. run_method.
    rewrite bool_decide_eq_true_2 by done.
    by use (list_find_missing s _ Hin).
  - intros Ht Hin. unfold set_training_data_cell. run_method.
    rewrite bool_decide_eq_true_2 by done.
    by use (list_find_missing s _ Hin).
  - intros Ht Hin. unfold set_training_data_non_cell. run_method.
    rewrite bool_decide_eq_true_2 by done.
    by use (list_find_missing s _ Hin).
Qed.

(** ** Tagging keeps names and classes *)

Lemma retag_viewer_objs (store : list Layer) (refs : list nat) (r : nat)
    (l l' : Layer) :
  store !! r = Some l → name l' = name l → pytype l' = pytype l →
  Forall2 (λ a b, name a = name b ∧ pytype a = pytype b)
    (omap (λ i, <[r := l']> store !! i) refs)
    (omap (λ i, store !! i) refs).
Proof.
  intros Hl Hn Ht. induction refs as [|i refs IH]; [constructor|].
  csimpl. destruct (decide (i = r)) as [->|Hne].
  - rewrite list_lookup_insert_eq by by eapply lookup_lt_Some.
    rewrite Hl. by constructor.
  - rewrite list_lookup_insert_ne by done.
    destruct (store !! i) as [x|]; [|done]. by constructor.
Qed.

Lemma names_of_similar (T : PyType) (l1 l2 : list Layer) :
  Forall2 (λ a b, name a = name b ∧ pytype a = pytype b) l1 l2 →
  name <$> l1 = name <$> l2 ∧
  name <$> filter (λ x, pytype x = T) l1 =
    name <$> filter (λ x, pytype x = T) l2.
Proof.
  induction 1 as [|a b l1 l2 [Hn Ht] _ [IH1 IH2]]; [done|]. split.
  - csimpl. by rewrite Hn, IH1.
  - rewrite !filter_cons. rewrite Ht.
    destruct (decide (pytype b = T)); csimpl; by rewrite ?Hn, IH2.
Qed.

(** Writing the tags into a layer changes no name list. *)
Lemma tagged_names (t : CellType) (r : nat) (l : Layer) (s s' : State)
    (T : PyType) :
  objs s !! r = Some l →
  objs s' = <[r := tagged t l]> (objs s) →
  viewer_layers s' = viewer_layers s →
  viewer_names s' = viewer_names s ∧
  _get_layer_names T s' = _get_layer_names T s.
Proof.
  intros Hl Ho Hv. unfold viewer_names, _get_layer_names, viewer_objs.
  rewrite Ho, Hv. apply names_of_similar.
  by apply (retag_viewer_objs _ _ r l).
Qed.

Lemma tagged_list_find (t : CellType) (r : nat) (l : Layer)
    (store : list Layer) (refs : list nat) (key : string) :
  store !! r = Some l →
  list_find (λ i, name <$> <[r := tagged t l]> store !! i = Some key) refs =
  list_find (λ i, name <$> store !! i = Some key) refs.
Proof.
  intros Hl. apply list_find_ext. intros i.
  destruct (decide (i = r)) as [->|Hne].
  - rewrite list_lookup_insert_eq by by eapply lookup_lt_Some.
    by rewrite Hl.
  - by rewrite list_lookup_insert_ne.
Qed.

(** X10: when both training-data dropdowns select the same layer, running
    the cell handler and then the non-cell handler sets both fields to that
    one layer object, whose [point_type] ends unknown: the second handler
    overwrites the label written by the first. *)
Theorem same_layer_in_both_dropdowns (s : State) (t : string) :
  currentText (training_data_cell_choice s) = t →
  currentText (training_data_non_cell_choice s) = t →
  t ≠ "" → t ∈ viewer_names s →
  ∃ r l s1 s2 l2,
    objs s !! r = Some l ∧ name l = t ∧
    set_training_data_cell s = Ok tt s1 ∧
    set_training_data_non_cell s1 = Ok tt s2 ∧
    training_data_cell_layer s2 = Some r ∧
    training_data_non_cell_layer s2 = Some r ∧
    objs s2 !! r = Some l2 ∧
    metadata l2 !! "point_type" = Some (MPointType UNKNOWN) ∧
    metadata l2 !! "training_data" = Some (MBool true) ∧
    data l2 = data l ∧
    ∀ r', r' ≠ r → objs s2 !! r' = objs s !! r'.
Proof.
  intros Hc Hn Ht Hin. subst t.
  destruct (layers_getitem_found s _ Hin) as (i & r & l & Hf & Hr & Hl & Hnm).
  assert (Hlt : r < length (objs s)) by by eapply lookup_lt_Some.
  exists r, l.
  exists (set_objs (<[r := tagged CELL l]> (objs s))
            (set_training_data_cell_layer (Some r) s)).
  eexists. exists (tagged UNKNOWN (tagged CELL l)).
  split; [done|]. split; [done|].
  split. { by apply (set_training_data_cell_run s i r l). }
  split.
  { apply (set_training_data_non_cell_run _ i r (tagged CELL l)).
    - simpl. by rewrite Hn.
    - simpl. rewrite Hn. by rewrite tagged_list_find.
    - simpl. by apply list_lookup_insert_eq. }
  destruct (tagged_metadata UNKNOWN (tagged CELL l)) as (Hpt & Htd & _).
  simpl. split_and!; try done.
  - apply list_lookup_insert_eq. by rewrite length_insert.
  - intros r' Hne. by rewrite !list_lookup_insert_ne.
Qed.

(** ** More on refreshing and on name lists *)

Lemma update_layer_list_choices (s : State) :
  signal_image_choice (update_layer_list s) =
    _update_combobox_options (signal_image_choice s)
      (_get_layer_names Image s) ∧
  background_image_choice (update_layer_list s) =
    _update_combobox_options (background_image_choice s)
      (_get_layer_names Image s) ∧
  training_data_cell_choice (update_layer_list s) =
    _update_combobox_options (training_data_cell_choice s)
      (_get_layer_names Points s) ∧
  training_data_non_cell_choice (update_layer_list s) =
    _update_combobox_options (training_data_non_cell_choice s)
      (_get_layer_names Points s) ∧
  image_layer_names (update_layer_list s) = _get_layer_names Image s ∧
  point_layer_names (update_layer_list s) = _get_layer_names Points s.
Proof. by split_and!. Qed.

Lemma update_combobox_options_forgets (cb cb' : ComboBox) (l : list string) :
  _update_combobox_options cb l = _update_combobox_options cb' l.
Proof. reflexivity. Qed.

(** X11: a refresh keeps nothing of the dropdowns' earlier content or
    selection: after [update_layer_list] the four dropdowns and the two name
    lists are determined by the viewer's layers alone, so two panels over
    the same layers agree on them whatever was selected before; running the
    handler again changes nothing. *)
Theorem update_layer_list_forgets_selection (s1 s2 : State) :
  viewer_objs s1 = viewer_objs s2 →
  signal_image_choice (update_layer_list s1) =
    signal_image_choice (update_layer_list s2) ∧
  background_image_choice (update_layer_list s1) =
    background_image_choice (update_layer_list s2) ∧
  training_data_cell_choice (update_layer_list s1) =
    training_data_cell_choice (update_layer_list s2) ∧
  training_data_non_cell_choice (update_layer_list s1) =
    training_data_non_cell_choice (update_layer_list s2) ∧
  image_layer_names (update_layer_list s1) =
    image_layer_names (update_layer_list s2) ∧
  point_layer_names (update_layer_list s1) =
    point_layer_names (update_layer_list s2) ∧
  update_layer_list (update_layer_list s1) = update_layer_list s1.
Proof.
  intros Hv.
  assert (Hn : ∀ T, _get_layer_names T s1 = _get_layer_names T s2).
  { intros T. unfold _get_layer_names. by rewrite Hv. }
  destruct (update_layer_list_choices s1) as (A1 & A2 & A3 & A4 & A5 & A6).
  destruct (update_layer_list_choices s2) as (B1 & B2 & B3 & B4 & B5 & B6).
  rewrite A1, A2, A3, A4, A5, A6, B1, B2, B3, B4, B5, B6, !Hn.
  split_and!; [apply update_combobox_options_forgets..|done|done|].
  apply update_layer_list_idem.
Qed.

Lemma filter_two_length (l : list Layer) (T1 T2 : PyType) :
  T1 ≠ T2 →
  (length (filter (λ x, pytype x = T1) l) +
   length (filter (λ x, pytype x = T2) l) ≤ length l)%nat.
Proof.
  intros Hne. induction l as [|x l IH]; [done|].
  rewrite !filter_cons.
  destruct (decide (pytype x = T1)) as [H1|H1];
    destruct (decide (pytype x = T2)) as [H2|H2]; simpl; try lia.
  congruence.
Qed.

Lemma omap_length_le (store : list Layer) (refs : list nat) :
  (length (omap (λ r, store !! r) refs) ≤ length refs)%nat.
Proof.
  induction refs as [|r refs IH]; [done|]. csimpl.
  destruct (store !! r); simpl; lia.
Qed.

(** X12: the name lists follow the viewer: each is a sublist of the
    viewer's names, in the viewer's order; the image names and the point
    names together are no more than the layers of the collection; and when
    the viewer's names are distinct, no name is offered both as an image
    and as a points layer. *)
Theorem layer_names_ordered_and_disjoint (s : State) :
  (∀ T, _get_layer_names T s `sublist_of` viewer_names s) ∧
  (length (_get_layer_names Image s) + length (_get_layer_names Points s)
     ≤ length (viewer_layers s))%nat ∧
  (NoDup (viewer_names s) →
   ∀ n, n ∈ _get_layer_names Image s → n ∉ _get_layer_names Points s).
Proof.
  split_and!.
  - intros T. apply get_layer_names_sublist.
  - unfold _get_layer_names. rewrite !length_fmap.
    etrans; [by apply filter_two_length|]. apply omap_length_le.
  - intros Hnd n Hi Hp.
    apply get_layer_names_elem in Hi as (a & Ha & Hta & Hna).
    apply get_layer_names_elem in Hp as (b & Hb & Htb & Hnb).
    apply list_elem_of_lookup_1 in Ha as [i Hi].
    apply list_elem_of_lookup_1 in Hb as [j Hj].
    assert (i = j).
    { eapply (NoDup_lookup (viewer_names s) i j n); [done|..];
        unfold viewer_names; rewrite list_lookup_fmap.
      - by rewrite Hi; simpl; rewrite Hna.
      - by rewrite Hj; simpl; rewrite Hnb. }
    subst j. rewrite Hi in Hj. injection Hj as ->. congruence.
Qed.

(** X13: [convert_layers_to_cells] is not all-or-nothing.  With the cell
    field unset it raises [AttributeError] and both record lists keep their
    old values; with the cell field set and the non-cell field unset it
    raises [AttributeError] after having replaced [cells_to_extract], while
    [non_cells_to_extract] keeps its old value. *)
Theorem convert_layers_to_cells_partial_update (s : State) :
  (training_data_cell_layer s = None →
   convert_layers_to_cells s = Raise AttributeError s) ∧
  (∀ rc lc,
     training_data_cell_layer s = Some rc → objs s !! rc = Some lc →
     training_data_non_cell_layer s = None →
     ∃ s', convert_layers_to_cells s = Raise AttributeError s' ∧
           cells_to_extract s' =
             Some (convert_layer_to_cells (data lc) true) ∧
           non_cells_to_extract s' = non_cells_to_extract s ∧
           same_viewer s s').
Proof.
  split.
  - apply convert_layers_to_cells_cell_unset.
  - intros rc lc Hc Hlc Hn. eexists. split.
    + by eapply convert_layers_to_cells_non_cell_unset.
    + by split_and!.
Qed.

(** ** Invariants along events *)

Lemma extract_cubes_same_viewer (chosen : string) (s : State) :
  same_viewer s (res_state (extract_cubes chosen s)).
Proof.
  apply (keeps_extract_cubes same_viewer same_viewer_refl same_viewer_trans);
    intros s0 v; unfold same_viewer; by split_and!.
Qed.

Lemma field_ok_grow (s s' : State) (f : option nat) :
  (length (objs s) ≤ length (objs s'))%nat → field_ok s f → field_ok s' f.
Proof. destruct f as [r|]; simpl; [lia|done]. Qed.

Lemma wf_same_viewer (s s' : State) : same_viewer s s' → wf s → wf s'.
Proof.
  intros (Ho & Hv & H1 & H2 & H3 & H4 & _) (Hr & F1 & F2 & F3 & F4).
  unfold wf, refs_ok, field_ok in *. rewrite Ho, Hv, H1, H2, H3, H4.
  by split_and!.
Qed.

Lemma synced_same_viewer (s s' : State) :
  same_viewer s s' → synced s → synced s'.
Proof.
  intros (Ho & Hv & _ & _ & _ & _ & C1 & C2 & C3 & C4) (S1 & S2 & S3 & S4).
  unfold synced, _get_layer_names, viewer_objs in *.
  rewrite Ho, Hv, C1, C2, C3, C4. by split_and!.
Qed.

Lemma get_layer_names_update_layer_list (T : PyType) (s : State) :
  _get_layer_names T (update_layer_list s) = _get_layer_names T s.
Proof. unfold _get_layer_names. by rewrite update_layer_list_viewer_objs. Qed.

Lemma update_layer_list_synced (s : State) : synced (update_layer_list s).
Proof.
  destruct (update_layer_list_items s) as (I1 & I2 & I3 & I4).
  unfold synced. rewrite !get_layer_names_update_layer_list.
  by split_and!.
Qed.

Lemma update_layer_list_wf (s : State) : wf s → wf (update_layer_list s).
Proof.
  destruct (update_layer_list_frame s) as (Ho & Hv & H3 & H4 & H1 & H2 & _).
  intros (Hr & F1 & F2 & F3 & F4).
  unfold wf, refs_ok, field_ok in *. rewrite Ho, Hv, H1, H2, H3, H4.
  by split_and!.
Qed.

Lemma synced_set_training_data_cell_layer (v : option nat) (s : State) :
  synced s → synced (set_training_data_cell_layer v s).
Proof. done. Qed.

Lemma after_add_points_synced (nm : string) (t : CellType) (s : State) :
  synced (after_add_points nm t s).
Proof.
  unfold after_add_points, with_new_layer.
  apply synced_set_training_data_cell_layer, update_layer_list_synced.
Qed.

Lemma select_both_synced (cell_name non_cell_name : string) (s : State) :
  synced s → synced (select_both cell_name non_cell_name s).
Proof.
  intros (S1 & S2 & S3 & S4). unfold synced, select_both. simpl.
  rewrite !setCurrentText_items. by split_and!.
Qed.

Lemma after_add_points_fields (nm : string) (t : CellType) (s : State) :
  signal_layer (after_add_points nm t s) = signal_layer s ∧
  background_layer (after_add_points nm t s) = background_layer s.
Proof. by split. Qed.

Lemma after_add_points_wf (nm : string) (t : CellType) (s : State) :
  wf s → wf (after_add_points nm t s).
Proof.
  intros (Hr & F1 & F2 & F3 & F4).
  destruct (after_add_points_store nm t s) as (Ho & Hv & Hc & Hn).
  destruct (after_add_points_fields nm t s) as (H1 & H2).
  pose proof (after_add_points_refs_ok nm t s Hr) as Hr'.
  remember (after_add_points nm t s) as s' eqn:E. clear E.
  assert (Hlen : length (objs s') = S (length (objs s))).
  { rewrite Ho, length_app. simpl. lia. }
  unfold wf. rewrite H1, H2, Hc, Hn. split_and!; [done|..].
  - eapply field_ok_grow; [|done]. lia.
  - eapply field_ok_grow; [|done]. lia.
  - simpl. lia.
  - eapply field_ok_grow; [|done]. lia.
Qed.

Lemma select_both_wf (cell_name non_cell_name : string) (s : State) :
  wf s → wf (select_both cell_name non_cell_name s).
Proof. done. Qed.

(** The three ways through a selection handler, for each of the four. *)
Lemma set_signal_image_cases (s : State) :
  set_signal_image s = Ok tt s ∨
  (∃ k, set_signal_image s = Raise (KeyError k) s ∧
        (currentText (signal_image_choice s) ∉ viewer_names s) ∧
        currentText (signal_image_choice s) ≠ "") ∨
  (∃ r l, objs s !! r = Some l ∧
          set_signal_image s = Ok tt (set_signal_layer (Some r) s)).
Proof.
  destruct (decide (currentText (signal_image_choice s) = "")) as [Ht|Ht].
  { left. unfold set_signal_image. run_method. by use Ht. }
  right.
  destruct (decide (currentText (signal_image_choice s) ∈ viewer_names s))
    as [Hin|Hin].
  - right.
    destruct (layers_getitem_found s _ Hin) as (i & r & l & Hf & _ & Hl & _).
    exists r, l. split; [done|]. by eapply set_signal_image_run.
  - left. eexists. split; [|done]. unfold set_signal_image. run_method.
    rewrite bool_decide_eq_true_2 by done.
    by use (list_find_missing s _ Hin).
Qed.

Lemma set_background_image_cases (s : State) :
  set_background_image s = Ok tt s ∨
  (∃ k, set_background_image s = Raise (KeyError k) s ∧
        (currentText (background_image_choice s) ∉ viewer_names s) ∧
        currentText (background_image_choice s) ≠ "") ∨
  (∃ r l, objs s !! r = Some l ∧
          set_background_image s = Ok tt (set_background_layer (Some r) s)).
Proof.
  destruct (decide (currentText (background_image_choice s) = "")) as [Ht|Ht].
  { left. unfold set_background_image. run_method. by use Ht. }
  right.
  destruct (decide (currentText (background_image_choice s) ∈ viewer_names s))
    as [Hin|Hin].
  - right.
    destruct (layers_getitem_found s _ Hin) as (i & r & l & Hf & _ & Hl & _).
    exists r, l. split; [done|]. by eapply set_background_image_run.
  - left. eexists. split; [|done]. unfold set_background_image. run_method.
    rewrite bool_decide_eq_true_2 by done.
    by use (list_find_missing s _ Hin).
Qed.

Lemma set_training_data_cell_cases (s : State) :
  set_training_data_cell s = Ok tt s ∨
  (∃ k, set_training_data_cell s = Raise (KeyError k) s ∧
        (currentText (training_data_cell_choice s) ∉ viewer_names s) ∧
        currentText (training_data_cell_choice s) ≠ "") ∨
  (∃ r l, objs s !! r = Some l ∧
          set_training_data_cell s =
            Ok tt (set_objs (<[r := tagged CELL l]> (objs s))
                     (set_training_data_cell_layer (Some r) s))).
Proof.
  destruct (decide (currentText (training_data_cell_choice s) = ""))
    as [Ht|Ht].
  { left. by apply set_training_data_cell_empty. }
  right.
  destruct (decide (currentText (training_data_cell_choice s)
                      ∈ viewer_names s)) as [Hin|Hin].
  - right.
    destruct (layers_getitem_found s _ Hin) as (i & r & l & Hf & _ & Hl & _).
    exists r, l. split; [done|]. by eapply set_training_data_cell_run.
  - left. eexists. split; [|done]. unfold set_training_data_cell.
    run_method. rewrite bool_decide_eq_true_2 by done.
    by use (list_find_missing s _ Hin).
Qed.

Lemma set_training_data_non_cell_cases (s : State) :
  set_training_data_non_cell s = Ok tt s ∨
  (∃ k, set_training_data_non_cell s = Raise (KeyError k) s ∧
        (currentText (training_data_non_cell_choice s) ∉ viewer_names s) ∧
        currentText (training_data_non_cell_choice s) ≠ "") ∨
  (∃ r l, objs s !! r = Some l ∧
          set_training_data_non_cell s =
            Ok tt (set_objs (<[r := tagged UNKNOWN l]> (objs s))
                     (set_training_data_non_cell_layer (Some r) s))).
Proof.
  destruct (decide (currentText (training_data_non_cell_choice s) = ""))
    as [Ht|Ht].
  { left. unfold set_training_data_non_cell. run_method. by use Ht. }
  right.
  destruct (decide (currentText (training_data_non_cell_choice s)
                      ∈ viewer_names s)) as [Hin|Hin].
  - right.
    destruct (layers_getitem_found s _ Hin) as (i & r & l & Hf & _ & Hl & _).
    exists r, l. split; [done|]. by eapply set_training_data_non_cell_run.
  - left. eexists. split; [|done]. unfold set_training_data_non_cell.
    run_method. rewrite bool_decide_eq_true_2 by done.
    by use (list_find_missing s _ Hin).
Qed.

Lemma wf_set_field (s s' : State) (r : nat) (l : Layer) :
  objs s !! r = Some l →
  objs s' = objs s → viewer_layers s' = viewer_layers s →
  (signal_layer s' = signal_layer s ∨ signal_layer s' = Some r) →
  (background_layer s' = background_layer s ∨
   background_layer s' = Some r) →
  (training_data_cell_layer s' = training_data_cell_layer s ∨
   training_data_cell_layer s' = Some r) →
  (training_data_non_cell_layer s' = training_data_non_cell_layer s ∨
   training_data_non_cell_layer s' = Some r) →
  wf s → wf s'.
Proof.
  intros Hl Ho Hv H1 H2 H3 H4 (Hr & F1 & F2 & F3 & F4).
  assert (Hlt : r < length (objs s)) by by eapply lookup_lt_Some.
  unfold wf, refs_ok, field_ok in *. rewrite Ho, Hv.
  split_and!; [done|..].
  - destruct H1 as [->| ->]; done.
  - destruct H2 as [->| ->]; done.
  - destruct H3 as [->| ->]; done.
  - destruct H4 as [->| ->]; done.
Qed.

Lemma wf_tagged (t : CellType) (s s' : State) (r : nat) (l : Layer) :
  objs s !! r = Some l →
  objs s' = <[r := tagged t l]> (objs s) →
  viewer_layers s' = viewer_layers s →
  signal_layer s' = signal_layer s →
  background_layer s' = background_layer s →
  (training_data_cell_layer s' = training_data_cell_layer s ∨
   training_data_cell_layer s' = Some r) →
  (training_data_non_cell_layer s' = training_data_non_cell_layer s ∨
   training_data_non_cell_layer s' = Some r) →
  wf s → wf s'.
Proof.
  intros Hl Ho Hv H1 H2 H3 H4 (Hr & F1 & F2 & F3 & F4).
  assert (Hlt : r < length (objs s)) by by eapply lookup_lt_Some.
  unfold wf, refs_ok, field_ok in *. rewrite Ho, Hv, H1, H2, length_insert.
  split_and!; [done..| |].
  - destruct H3 as [->| ->]; done.
  - destruct H4 as [->| ->]; done.
Qed.

Lemma synced_tagged (t : CellType) (s s' : State) (r : nat) (l : Layer) :
  objs s !! r = Some l →
  objs s' = <[r := tagged t l]> (objs s) →
  viewer_layers s' = viewer_layers s →
  signal_image_choice s' = signal_image_choice s →
  background_image_choice s' = background_image_choice s →
  training_data_cell_choice s' = training_data_cell_choice s →
  training_data_non_cell_choice s' = training_data_non_cell_choice s →
  synced s → synced s'.
Proof.
  intros Hl Ho Hv C1 C2 C3 C4 (S1 & S2 & S3 & S4).
  destruct (tagged_names t r l s s' Image Hl Ho Hv) as [_ HI].
  destruct (tagged_names t r l s s' Points Hl Ho Hv) as [_ HP].
  unfold synced. rewrite C1, C2, C3, C4, HI, HP. by split_and!.
Qed.

Lemma handle_wf (e : Event) (s : State) :
  wf s → wf (res_state (handle e s)).
Proof.
  intros Hwf. destruct e as [| | | |cn ncn|chosen|]; unfold handle.
  - destruct (set_signal_image_cases s)
      as [->|[(k & -> & _)|(r & l & Hl & ->)]]; [done..|].
    simpl. eapply wf_set_field; eauto.
  - destruct (set_background_image_cases s)
      as [->|[(k & -> & _)|(r & l & Hl & ->)]]; [done..|].
    simpl. eapply wf_set_field; eauto.
  - destruct (set_training_data_cell_cases s)
      as [->|[(k & -> & _)|(r & l & Hl & ->)]]; [done..|].
    simpl. eapply (wf_tagged CELL); eauto.
  - destruct (set_training_data_non_cell_cases s)
      as [->|[(k & -> & _)|(r & l & Hl & ->)]]; [done..|].
    simpl. eapply (wf_tagged UNKNOWN); eauto.
  - rewrite add_training_data_run. simpl.
    by apply select_both_wf, after_add_points_wf, after_add_points_wf.
  - eapply wf_same_viewer; [apply extract_cubes_same_viewer|done].
  - by apply update_layer_list_wf.
Qed.

Lemma handle_synced (e : Event) (s : State) :
  synced s → synced (res_state (handle e s)).
Proof.
  intros Hs. destruct e as [| | | |cn ncn|chosen|]; unfold handle.
  - destruct (set_signal_image_cases s)
      as [->|[(k & -> & _)|(r & l & Hl & ->)]]; done.
  - destruct (set_background_image_cases s)
      as [->|[(k & -> & _)|(r & l & Hl & ->)]]; done.
  - destruct (set_training_data_cell_cases s)
      as [->|[(k & -> & _)|(r & l & Hl & ->)]]; [done..|].
    simpl. eapply (synced_tagged CELL); eauto.
  - destruct (set_training_data_non_cell_cases s)
      as [->|[(k & -> & _)|(r & l & Hl & ->)]]; [done..|].
    simpl. eapply (synced_tagged UNKNOWN); eauto.
  - rewrite add_training_data_run. simpl.
    apply select_both_synced, after_add_points_synced.
  - eapply synced_same_viewer; [apply extract_cubes_same_viewer|done].
  - apply update_layer_list_synced.
Qed.

Lemma after_events_cons (e : Event) (es : list Event) (s : State) :
  after_events (e :: es) s = after_events es (res_state (handle e s)).
Proof. reflexivity. Qed.

(** X14: along any sequence of events, starting from a state whose
    references all point into the object store, every state reached has that
    property: the collection and the four layer fields never hold a
    reference to an object that does not exist. *)
Theorem events_keep_references_valid (es : list Event) (s : State) :
  wf s → wf (after_events es s).
Proof.
  revert s. induction es as [|e es IH]; intros s Hwf; [done|].
  rewrite after_events_cons. by apply IH, handle_wf.
Qed.

(** X15: along any sequence of events, starting from a state whose four
    dropdowns list the viewer's image and points layers, every state reached
    has that property: no handler of the panel, whether it returns or
    raises, leaves a dropdown out of step with the viewer. *)
Theorem events_keep_dropdowns_synced (es : list Event) (s : State) :
  synced s → synced (after_events es s).
Proof.
  revert s. induction es as [|e es IH]; intros s Hs; [done|].
  rewrite after_events_cons. by apply IH, handle_synced.
Qed.

(** ** Which exceptions can occur *)

Lemma currentText_listed (cb : ComboBox) :
  currentText cb = "" ∨ currentText cb ∈ items cb.
Proof.
  unfold currentText. destruct (currentIndex cb) as [i|]; [|by left].
  destruct (items cb !! i) as [t|] eqn:E; [|by left].
  right. simpl. by eapply list_elem_of_lookup_2.
Qed.

Lemma synced_text_live (s : State) (cb : ComboBox) (T : PyType) :
  items cb = _get_layer_names T s →
  currentText cb = "" ∨ currentText cb ∈ viewer_names s.
Proof.
  intros Hi. destruct (currentText_listed cb) as [H|H]; [by left|right].
  rewrite Hi in H.
  by eapply elem_of_sublist; [|apply get_layer_names_sublist].
Qed.

(** In a state whose dropdowns are in step with the viewer, no selection
    handler raises. *)
Lemma selection_handlers_return (s : State) :
  synced s →
  (∃ s', set_signal_image s = Ok tt s') ∧
  (∃ s', set_background_image s = Ok tt s') ∧
  (∃ s', set_training_data_cell s = Ok tt s') ∧
  (∃ s', set_training_data_non_cell s = Ok tt s').
Proof.
  intros (S1 & S2 & S3 & S4). split_and!.
  - destruct (set_signal_image_cases s)
      as [H|[(k & _ & Hin & Ht)|(r & l & _ & H)]]; eauto.
    by destruct (synced_text_live s _ _ S1).
  - destruct (set_background_image_cases s)
      as [H|[(k & _ & Hin & Ht)|(r & l & _ & H)]]; eauto.
    by destruct (synced_text_live s _ _ S2).
  - destruct (set_training_data_cell_cases s)
      as [H|[(k & _ & Hin & Ht)|(r & l & _ & H)]]; eauto.
    by destruct (synced_text_live s _ _ S3).
  - destruct (set_training_data_non_cell_cases s)
      as [H|[(k & _ & Hin & Ht)|(r & l & _ & H)]]; eauto.
    by destruct (synced_text_live s _ _ S4).
Qed.

Lemma field_ok_lookup (s : State) (r : nat) :
  field_ok s (Some r) → is_Some (objs s !! r).
Proof. simpl. apply lookup_lt_is_Some. Qed.

(** With valid references an export that raises raises
    [AttributeError]. *)
Lemma extract_cubes_raises_attribute_error (chosen : string) (s s' : State)
    (e : Exn) :
  wf s → extract_cubes chosen s = Raise e s' → e = AttributeError.
Proof.
  intros (_ & _ & _ & F3 & F4) Hrun.
  assert (Hopen : ∀ rc lc,
    training_data_cell_layer s = Some rc → objs s !! rc = Some lc →
    check_training_data_exists s = Ok true s → e = AttributeError).
  { intros rc lc Hc Hlc Hchk.
    rewrite (extract_cubes_open _ _ Hchk) in Hrun.
    set (s2 := set_status_label "Extracting cubes"
                 (set_output_directory (DPath (Path chosen)) s)) in *.
    destruct (training_data_non_cell_layer s) as [rn|] eqn:Hn.
    - destruct (field_ok_lookup s rn F4) as [ln Hln].
      by rewrite (convert_layers_to_cells_both s2 rc rn lc ln Hc Hlc Hn Hln)
        in Hrun.
    - rewrite (convert_layers_to_cells_non_cell_unset s2 rc lc Hc Hlc Hn)
        in Hrun. by injection Hrun. }
  destruct (check_training_data_exists_cases s)
    as [(_ & _ & H)|[(_ & _ & H)|[(rc & Hc & Hlc & H)
       |[(rc & lc & Hc & Hlc & _ & H)
       |[(rc & lc & _ & _ & _ & _ & H)
       |[(rc & lc & rn & _ & _ & _ & Hn & Hln & H)
       |[(rc & lc & rn & ln & Hc & Hlc & _ & _ & _ & _ & H)
       |(rc & lc & rn & ln & _ & _ & _ & _ & _ & _ & H)]]]]]]].
  - by rewrite (extract_cubes_gate_closed _ _ _ H) in Hrun.
  - rewrite (extract_cubes_gate_raises _ _ _ _ H) in Hrun. by injection Hrun.
  - rewrite Hc in F3. destruct (field_ok_lookup s rc F3) as [l Hl]. congruence.
  - by eapply Hopen.
  - rewrite (extract_cubes_gate_raises _ _ _ _ H) in Hrun. by injection Hrun.
  - rewrite Hn in F4. destruct (field_ok_lookup s rn F4) as [l Hl]. congruence.
  - by eapply Hopen.
  - by rewrite (extract_cubes_gate_closed _ _ _ H) in Hrun.
Qed.

(** X16: start from a state with valid references whose dropdowns are in
    step with the viewer, and let any sequence of events happen.  Whatever
    handler runs next, if it raises, it is the export and the exception is
    [AttributeError]: the selection handlers, the add button and the refresh
    always return, and neither [KeyError] nor a broken reference occurs. *)
Theorem events_raise_only_attribute_error (es : list Event) (s : State)
    (e : Event) (exn : Exn) (s' : State) :
  wf s → synced s →
  handle e (after_events es s) = Raise exn s' →
  exn = AttributeError ∧ ∃ chosen, e = ExtractClicked chosen.
Proof.
  intros Hwf Hs.
  assert (Hinv : wf (after_events es s) ∧ synced (after_events es s)).
  { revert s Hwf Hs. induction es as [|e' es IH]; intros s Hwf Hs; [done|].
    rewrite after_events_cons. by apply IH; [apply handle_wf|apply handle_synced]. }
  destruct Hinv as [Hwf' Hs']. clear Hwf Hs.
  remember (after_events es s) as s0 eqn:E. clear E.
  destruct (selection_handlers_return s0 Hs')
    as ([s1 H1] & [s2 H2] & [s3 H3] & [s4 H4]).
  destruct e as [| | | |cn ncn|chosen|]; unfold handle; intros Hrun.
  - congruence.
  - congruence.
  - congruence.
  - congruence.
  - by rewrite add_training_data_run in Hrun.
  - split; [by eapply extract_cubes_raises_attribute_error|eauto].
  - done.
Qed.

(** X17: a panel constructed over a viewer whose collection refers to
    existing layer objects starts with valid references, with its four
    dropdowns in step with the viewer, with all four layer fields unset and
    with the status label "Ready". *)
Theorem new_panel_is_consistent (store : list Layer) (layers : list nat)
    (cfg : Config) :
  Forall (λ r, r < length store) layers →
  let s := __init__ store layers cfg in
  wf s ∧ synced s ∧
  signal_layer s = None ∧ background_layer s = None ∧
  training_data_cell_layer s = None ∧
  training_data_non_cell_layer s = None ∧
  status_label s = "Ready" ∧ dialogs s = [].
Proof.
  intros Hok s. by split_and!.
Qed.

(** ** What the panel never does to a layer *)

Lemma extends_refl (s : State) : extends s s.
Proof. split; [|done]. intros r l Hl. exists l. by split_and!. Qed.

Lemma extends_trans (s1 s2 s3 : State) :
  extends s1 s2 → extends s2 s3 → extends s1 s3.
Proof.
  intros [A1 A2] [B1 B2]. split; [|by etrans].
  intros r l Hl.
  destruct (A1 r l Hl) as (l2 & Hl2 & N2 & T2 & D2 & M2).
  destruct (B1 r l2 Hl2) as (l3 & Hl3 & N3 & T3 & D3 & M3).
  exists l3. split_and!; try congruence.
  intros k K1 K2. by rewrite M3, M2.
Qed.

Lemma extends_same_store (s s' : State) :
  objs s' = objs s → viewer_layers s' = viewer_layers s → extends s s'.
Proof.
  intros Ho Hv. split; [|by rewrite Hv].
  intros r l Hl. exists l. rewrite Ho. by split_and!.
Qed.

Lemma extends_tagged (t : CellType) (s s' : State) (r : nat) (l : Layer) :
  objs s !! r = Some l →
  objs s' = <[r := tagged t l]> (objs s) →
  viewer_layers s' = viewer_layers s → extends s s'.
Proof.
  intros Hl Ho Hv. split; [|by rewrite Hv].
  intros r' l' Hl'. rewrite Ho. destruct (decide (r' = r)) as [->|Hne].
  - exists (tagged t l).
    rewrite list_lookup_insert_eq by by eapply lookup_lt_Some.
    assert (l' = l) as -> by congruence.
    destruct (tagged_metadata t l) as (_ & _ & Hm). by split_and!.
  - exists l'. rewrite list_lookup_insert_ne by done. by split_and!.
Qed.

Lemma extends_after_add_points (nm : string) (t : CellType) (s : State) :
  extends s (after_add_points nm t s).
Proof.
  destruct (after_add_points_store nm t s) as (Ho & Hv & _).
  split.
  - intros r l Hl. exists l. rewrite Ho.
    split; [by apply lookup_app_l_Some|by split_and!].
  - rewrite Hv. by apply prefix_app_r.
Qed.

Lemma handle_extends (e : Event) (s : State) :
  extends s (res_state (handle e s)).
Proof.
  destruct e as [| | | |cn ncn|chosen|]; unfold handle.
  - destruct (set_signal_image_cases s)
      as [->|[(k & -> & _)|(r & l & Hl & ->)]];
      by apply extends_same_store.
  - destruct (set_background_image_cases s)
      as [->|[(k & -> & _)|(r & l & Hl & ->)]];
      by apply extends_same_store.
  - destruct (set_training_data_cell_cases s)
      as [->|[(k & -> & _)|(r & l & Hl & ->)]];
      [by apply extends_same_store..|].
    by apply (extends_tagged CELL _ _ r l).
  - destruct (set_training_data_non_cell_cases s)
      as [->|[(k & -> & _)|(r & l & Hl & ->)]];
      [by apply extends_same_store..|].
    by apply (extends_tagged UNKNOWN _ _ r l).
  - rewrite add_training_data_run. simpl.
    eapply extends_trans; [apply extends_after_add_points|].
    eapply extends_trans; [apply extends_after_add_points|].
    destruct (select_both_frame cn ncn
                (after_add_points ncn UNKNOWN (after_add_points cn CELL s)))
      as (Ho & Hv & _).
    apply extends_same_store; [exact Ho|exact Hv].
  - destruct (extract_cubes_same_viewer chosen s) as (Ho & Hv & _).
    by apply extends_same_store.
  - destruct (update_layer_list_frame s) as (Ho & Hv & _).
    by apply extends_same_store.
Qed.

(** X18: whatever sequence of events the panel handles, it never removes an
    object from the store or a layer from the collection, never renames a
    layer, never changes a layer's class or points, and never writes a
    metadata key other than [point_type] and [training_data]. *)
Theorem events_extend_the_viewer (es : list Event) (s : State) :
  extends s (after_events es s).
Proof.
  revert s. induction es as [|e es IH]; intros s; [apply extends_refl|].
  rewrite after_events_cons.
  eapply extends_trans; [apply handle_extends|apply IH].
Qed.

End Panel.

Arguments Ok {Coord A} a s.
Arguments Raise {Coord A} e s.

(** ** The panel on concrete viewers *)

(** The viewer that keeps the requested name is used below; layers are
    written out in full. *)

(** C1: the check is to return true as soon as one set training layer holds
    a point, also when only one of the two is set.  In a viewer with two
    points layers of one point each, the user picks "Non cells" in the
    non-cell dropdown; the handler sets the non-cell field only, and the
    check then raises [AttributeError] on the unset cell field instead of
    returning true. *)
Theorem check_training_data_exists_raises_when_only_non_cell_set :
  let s0 :=
    __init__ (Coord := Z)
      [ {| name := "Cells"; pytype := Points; data := [(10, 20, 30)%Z];
           metadata := ∅ |};
        {| name := "Non cells"; pytype := Points; data := [(1, 2, 3)%Z];
           metadata := ∅ |} ]
      [0; 1] default_config in
  let picked :=
    set_training_data_non_cell_choice
      (setCurrentText (training_data_non_cell_choice s0) "Non cells") s0 in
  ∃ s1,
    set_training_data_non_cell picked = Ok tt s1 ∧
    training_data_cell_layer s1 = None ∧
    training_data_non_cell_layer s1 = Some 1 ∧
    data <$> objs s1 !! 1 = Some [(1, 2, 3)%Z] ∧
    check_training_data_exists s1 = Raise AttributeError s1.
Proof. eexists. split; [vm_compute; reflexivity|]. by vm_compute. Qed.

(** C2: no exception is to leave [check_training_data_exists] or
    [extract_cubes], whichever training layers are set.  In a viewer with a
    points layer without points, the user picks it in the cell dropdown;
    both methods then raise [AttributeError] on the unset non-cell field,
    and no dialog is shown. *)
Theorem extract_cubes_raises_when_only_cell_set :
  let s0 :=
    __init__ (Coord := Z)
      [ {| name := "Cells"; pytype := Points; data := [(10, 20, 30)%Z];
           metadata := ∅ |};
        {| name := "Empty"; pytype := Points; data := []; metadata := ∅ |} ]
      [0; 1] default_config in
  let picked :=
    set_training_data_cell_choice
      (setCurrentText (training_data_cell_choice s0) "Empty") s0 in
  ∃ s1,
    set_training_data_cell picked = Ok tt s1 ∧
    training_data_cell_layer s1 = Some 1 ∧
    training_data_non_cell_layer s1 = None ∧
    check_training_data_exists s1 = Raise AttributeError s1 ∧
    extract_cubes "/data/cubes" s1 = Raise AttributeError s1 ∧
    dialogs s1 = [].
Proof. eexists. split; [vm_compute; reflexivity|]. by vm_compute. Qed.

(** C4: when the check returns true the export is to convert both layers
    and to end with the status [Ready].  In a viewer with an empty points
    layer and one holding a point, the user picks the latter in the cell
    dropdown; the check returns true, the directory is resolved and the cell
    records are stored, then the conversion of the unset non-cell field
    raises [AttributeError]: the non-cell records are not stored and the
    status stays at "Extracting cubes". *)
Theorem extract_cubes_stops_after_open_gate :
  let s0 :=
    __init__ (Coord := Z)
      [ {| name := "Empty"; pytype := Points; data := []; metadata := ∅ |};
        {| name := "Cells"; pytype := Points; data := [(10, 20, 30)%Z];
           metadata := ∅ |} ]
      [0; 1] default_config in
  let picked :=
    set_training_data_cell_choice
      (setCurrentText (training_data_cell_choice s0) "Cells") s0 in
  ∃ s1 s2,
    set_training_data_cell picked = Ok tt s1 ∧
    check_training_data_exists s1 = Ok true s1 ∧
    extract_cubes "/data/cubes" s1 = Raise AttributeError s2 ∧
    output_directory s2 = DPath {| root := "/"; parts := ["data"; "cubes"] |} ∧
    cells_to_extract s2 =
      Some [ {| pos := (10, 20, 30)%Z; cell_type := CELL |} ] ∧
    non_cells_to_extract s2 = None ∧
    status_label s2 = "Extracting cubes".
Proof.
  eexists. eexists. split; [vm_compute; reflexivity|].
  split; [vm_compute; reflexivity|].
  split; [vm_compute; reflexivity|]. by vm_compute.
Qed.

(** [get_layer_names_exact_type] on a viewer holding an image, a labels
    layer (a subclass of the image class) and a points layer. *)
Lemma get_layer_names_exact_type_witness :
  let s :=
    __init__ (Coord := Z)
      [ {| name := "signal"; pytype := Image; data := []; metadata := ∅ |};
        {| name := "atlas"; pytype := Subclass Image "Labels"; data := [];
           metadata := ∅ |};
        {| name := "Cells"; pytype := Points; data := [(10, 20, 30)%Z];
           metadata := ∅ |} ]
      [0; 1; 2] default_config in
  let x := {| name := "atlas"; pytype := Subclass Image "Labels"; data := [];
              metadata := ∅ |} in
  viewer_objs s =
    [ {| name := "signal"; pytype := Image; data := []; metadata := ∅ |} ] ++
    x :: [ {| name := "Cells"; pytype := Points; data := [(10, 20, 30)%Z];
              metadata := ∅ |} ] ∧
  isinstance (pytype x) Image = true ∧
  _get_layer_names Image s = ["signal"].
Proof.
  intros s x.
  assert (Hv : viewer_objs s =
    [ {| name := "signal"; pytype := Image; data := []; metadata := ∅ |} ] ++
    x :: [ {| name := "Cells"; pytype := Points; data := [(10, 20, 30)%Z];
              metadata := ∅ |} ]) by reflexivity.
  split; [exact Hv|].
  destruct (get_layer_names_exact_type Image s _ _ _ Hv) as (_ & _ & Hsub).
  destruct (Hsub "Labels" eq_refl) as [Hi Hn]. split; [exact Hi|exact Hn].
Defined.

(** [update_layer_list_dropdowns] on the same viewer. *)
Lemma update_layer_list_dropdowns_witness :
  let s :=
    __init__ (Coord := Z)
      [ {| name := "signal"; pytype := Image; data := []; metadata := ∅ |};
        {| name := "atlas"; pytype := Subclass Image "Labels"; data := [];
           metadata := ∅ |};
        {| name := "Cells"; pytype := Points; data := [(10, 20, 30)%Z];
           metadata := ∅ |} ]
      [0; 1; 2] default_config in
  NoDup (viewer_names s) ∧
  let s' := update_layer_list s in
  viewer_objs s' = viewer_objs s ∧
  shows (signal_image_choice s') Image s' ∧
  shows (background_image_choice s') Image s' ∧
  shows (training_data_cell_choice s') Points s' ∧
  shows (training_data_non_cell_choice s') Points s'.
Proof.
  intros s.
  assert (Hnd : NoDup (viewer_names s)) by compute_done.
  split; [exact Hnd|]. exact (update_layer_list_dropdowns s Hnd).
Defined.

(** [set_training_data_tags_selected_only] on a viewer with two points
    layers, the first of which is selected in both dropdowns. *)
Lemma set_training_data_tags_selected_only_witness :
  let s :=
    __init__ (Coord := Z)
      [ {| name := "Cells"; pytype := Points; data := [(10, 20, 30)%Z];
           metadata := <["note" := MStr "kept"]> ∅ |};
        {| name := "Non cells"; pytype := Points; data := [(1, 2, 3)%Z];
           metadata := ∅ |} ]
      [0; 1] default_config in
  (currentText (training_data_cell_choice s) ≠ "" ∧
   currentText (training_data_cell_choice s) ∈ viewer_names s ∧
   ∃ r l s', r ∈ viewer_layers s ∧
             name l = currentText (training_data_cell_choice s) ∧
             set_training_data_cell s = Ok tt s' ∧
             training_data_cell_layer s' = Some r ∧
             selection_effect CELL r l s s') ∧
  (currentText (training_data_non_cell_choice s) ≠ "" ∧
   currentText (training_data_non_cell_choice s) ∈ viewer_names s ∧
   ∃ r l s', r ∈ viewer_layers s ∧
             name l = currentText (training_data_non_cell_choice s) ∧
             set_training_data_non_cell s = Ok tt s' ∧
             training_data_non_cell_layer s' = Some r ∧
             selection_effect UNKNOWN r l s s').
Proof.
  intros s.
  assert (H1 : currentText (training_data_cell_choice s) ≠ "") by done.
  assert (H2 : currentText (training_data_cell_choice s) ∈ viewer_names s)
    by compute_done.
  assert (H3 : currentText (training_data_non_cell_choice s) ≠ "") by done.
  assert (H4 : currentText (training_data_non_cell_choice s) ∈ viewer_names s)
    by compute_done.
  destruct (set_training_data_tags_selected_only s) as [Hc Hn].
  split.
  - split; [exact H1|]. split; [exact H2|]. exact (Hc H1 H2).
  - split; [exact H3|]. split; [exact H4|]. exact (Hn H3 H4).
Defined.

(** [convert_layer_to_cells_preserves] on two coordinates, and on a panel
    whose two fields are set. *)
Lemma convert_layer_to_cells_preserves_witness :
  let d := [(10, 20, 30)%Z; (1, 2, 3)%Z] in
  let s :=
    set_training_data_non_cell_layer (Some 1)
      (set_training_data_cell_layer (Some 0)
         (__init__ (Coord := Z)
            [ {| name := "Cells"; pytype := Points; data := d;
                 metadata := ∅ |};
              {| name := "Non cells"; pytype := Points;
                 data := [(7, 8, 9)%Z]; metadata := ∅ |} ]
            [0; 1] default_config)) in
  length (convert_layer_to_cells d false) = 2 ∧
  pos <$> convert_layer_to_cells d false = d ∧
  ∃ s', convert_layers_to_cells s = Ok tt s' ∧
        cells_to_extract s' =
          Some [ {| pos := (10, 20, 30)%Z; cell_type := CELL |};
                 {| pos := (1, 2, 3)%Z; cell_type := CELL |} ] ∧
        non_cells_to_extract s' =
          Some [ {| pos := (7, 8, 9)%Z; cell_type := UNKNOWN |} ].
Proof.
  intros d s.
  destruct (convert_layer_to_cells_preserves d false)
    as (Hlen & Hpos & _ & _ & Hrun).
  split; [exact Hlen|]. split; [exact Hpos|].
  exact (Hrun s 0 1 _ _ eq_refl eq_refl eq_refl eq_refl).
Defined.


(** After [add_training_data] on a fresh panel the field
    [training_data_non_cell_layer] is still unset; it is the selection
    handler of the non-cell dropdown, once run, that sets it to the second
    new layer. *)
Example add_training_data_then_non_cell_handler :
  let s :=
    __init__ (Coord := Z)
      [ {| name := "signal"; pytype := Image; data := []; metadata := ∅ |} ]
      [0] default_config in
  ∃ s1 s2,
    add_training_data (λ _ n, n) default_cell_name default_non_cell_name s
      = Ok tt s1 ∧
    training_data_cell_layer s1 = Some 2 ∧
    training_data_non_cell_layer s1 = None ∧
    set_training_data_non_cell s1 = Ok tt s2 ∧
    training_data_cell_layer s2 = Some 2 ∧
    training_data_non_cell_layer s2 = Some 2.
Proof.
  eexists. eexists. split; [vm_compute; reflexivity|].
  split; [reflexivity|]. split; [reflexivity|].
  split; [vm_compute; reflexivity|]. by split.
Qed.

(** ** The further properties on concrete viewers *)

(** [check_training_data_exists_true_iff], right to left, on a panel whose
    cell field holds a layer with one point. *)
Lemma check_training_data_exists_true_iff_witness :
  let lc := {| name := "Cells"; pytype := Points; data := [(10, 20, 30)%Z];
               metadata := ∅ |} in
  let s := set_training_data_cell_layer (Some 0)
             (__init__ (Coord := Z) [lc] [0] default_config) in
  (training_data_cell_layer s = Some 0 ∧ objs s !! 0 = Some lc ∧
   0 < length (data lc)) ∧
  check_training_data_exists s = Ok true s.
Proof.
  intros lc s.
  assert (H : training_data_cell_layer s = Some 0 ∧ objs s !! 0 = Some lc ∧
              0 < length (data lc)) by (split_and!; [done..|simpl; lia]).
  split; [exact H|].
  apply (proj2 (check_training_data_exists_true_iff s s)).
  split; [reflexivity|]. exists 0, lc.
  destruct H as (H1 & H2 & H3). split_and!; [exact H1|exact H2|by left].
Defined.

(** [check_training_data_exists_attribute_error_iff], right to left, on a
    panel whose non-cell field alone is set. *)
Lemma check_training_data_exists_attribute_error_iff_witness :
  let s := set_training_data_non_cell_layer (Some 0)
             (__init__ (Coord := Z)
                [ {| name := "Non cells"; pytype := Points;
                     data := [(1, 2, 3)%Z]; metadata := ∅ |} ]
                [0] default_config) in
  (training_data_cell_layer s = None ∧
   is_Some (training_data_non_cell_layer s)) ∧
  check_training_data_exists s = Raise AttributeError s.
Proof.
  intros s.
  assert (H : training_data_cell_layer s = None ∧
              is_Some (training_data_non_cell_layer s))
    by (split; [done|by eexists]).
  split; [exact H|].
  apply (proj2 (check_training_data_exists_attribute_error_iff s s)).
  split; [reflexivity|]. by left.
Defined.

(** [extract_cubes_exports_both_layers] on a panel with both fields set. *)
Lemma extract_cubes_exports_both_layers_witness :
  let lc := {| name := "Cells"; pytype := Points; data := [(10, 20, 30)%Z];
               metadata := ∅ |} in
  let ln := {| name := "Non cells"; pytype := Points; data := [];
               metadata := ∅ |} in
  let s := set_training_data_non_cell_layer (Some 1)
             (set_training_data_cell_layer (Some 0)
                (__init__ (Coord := Z) [lc; ln] [0; 1] default_config)) in
  (0 < length (data lc) ∨ 0 < length (data ln)) ∧
  ∃ s', extract_cubes "/data/cubes" s = Ok tt s' ∧
        status_label s' = "Ready" ∧
        output_directory s' =
          DPath {| root := "/"; parts := ["data"; "cubes"] |} ∧
        cells_to_extract s' =
          Some [ {| pos := (10, 20, 30)%Z; cell_type := CELL |} ] ∧
        non_cells_to_extract s' = Some [].
Proof.
  intros lc ln s.
  assert (Hp : 0 < length (data lc) ∨ 0 < length (data ln))
    by (left; simpl; lia).
  split; [exact Hp|].
  destruct (extract_cubes_exports_both_layers "/data/cubes" s 0 1 lc ln
              eq_refl eq_refl eq_refl eq_refl Hp)
    as (s' & Hrun & _ & Hst & Hdir & Hc & Hn & _).
  exists s'. split_and!; [exact Hrun|exact Hst|exact Hdir|exact Hc|exact Hn].
Defined.

(** [set_image_sets_field_only] on a viewer with two images, the first
    selected in both image dropdowns. *)
Lemma set_image_sets_field_only_witness :
  let s :=
    __init__ (Coord := Z)
      [ {| name := "signal"; pytype := Image; data := []; metadata := ∅ |};
        {| name := "background"; pytype := Image; data := [];
           metadata := ∅ |} ]
      [0; 1] default_config in
  (currentText (signal_image_choice s) ≠ "" ∧
   currentText (signal_image_choice s) ∈ viewer_names s ∧
   ∃ r l, r ∈ viewer_layers s ∧ objs s !! r = Some l ∧
          name l = currentText (signal_image_choice s) ∧
          set_signal_image s = Ok tt (set_signal_layer (Some r) s)) ∧
  (currentText (background_image_choice s) ≠ "" ∧
   currentText (background_image_choice s) ∈ viewer_names s ∧
   ∃ r l, r ∈ viewer_layers s ∧ objs s !! r = Some l ∧
          name l = currentText (background_image_choice s) ∧
          set_background_image s = Ok tt (set_background_layer (Some r) s)).
Proof.
  intros s.
  assert (H1 : currentText (signal_image_choice s) ≠ "") by done.
  assert (H2 : currentText (signal_image_choice s) ∈ viewer_names s)
    by compute_done.
  assert (H3 : currentText (background_image_choice s) ≠ "") by done.
  assert (H4 : currentText (background_image_choice s) ∈ viewer_names s)
    by compute_done.
  destruct (set_image_sets_field_only s) as [Hs Hb].
  split.
  - split; [exact H1|]. split; [exact H2|]. exact (Hs H1 H2).
  - split; [exact H3|]. split; [exact H4|]. exact (Hb H3 H4).
Defined.

(** [selection_handlers_empty_or_stale] on a panel over an empty viewer
    (nothing selected) and on a panel whose viewer has lost its layers
    since the dropdowns were filled. *)
Lemma selection_handlers_empty_or_stale_witness :
  let s_empty := __init__ (Coord := Z) [] [] default_config in
  let s_stale :=
    set_viewer_layers []
      (__init__ (Coord := Z)
         [ {| name := "signal"; pytype := Image; data := []; metadata := ∅ |};
           {| name := "Cells"; pytype := Points; data := [(10, 20, 30)%Z];
              metadata := ∅ |} ]
         [0; 1] default_config) in
  (currentText (training_data_cell_choice s_empty) = "" ∧
   set_signal_image s_empty = Ok tt s_empty ∧
   set_background_image s_empty = Ok tt s_empty ∧
   set_training_data_cell s_empty = Ok tt s_empty ∧
   set_training_data_non_cell s_empty = Ok tt s_empty) ∧
  (currentText (signal_image_choice s_stale) ≠ "" ∧
   (currentText (signal_image_choice s_stale) ∉ viewer_names s_stale) ∧
   currentText (training_data_cell_choice s_stale) ≠ "" ∧
   (currentText (training_data_cell_choice s_stale) ∉ viewer_names s_stale) ∧
   set_signal_image s_stale = Raise (KeyError "signal") s_stale ∧
   set_background_image s_stale = Raise (KeyError "signal") s_stale ∧
   set_training_data_cell s_stale = Raise (KeyError "Cells") s_stale ∧
   set_training_data_non_cell s_stale = Raise (KeyError "Cells") s_stale).
Proof.
  intros s_empty s_stale.
  destruct (selection_handlers_empty_or_stale s_empty)
    as (E1 & E2 & E3 & E4 & _).
  destruct (selection_handlers_empty_or_stale s_stale)
    as (_ & _ & _ & _ & K1 & K2 & K3 & K4).
  assert (Hi : currentText (signal_image_choice s_stale) ≠ "") by done.
  assert (Hi' : currentText (signal_image_choice s_stale)
                  ∉ viewer_names s_stale) by compute_done.
  assert (Hp : currentText (training_data_cell_choice s_stale) ≠ "") by done.
  assert (Hp' : currentText (training_data_cell_choice s_stale)
                  ∉ viewer_names s_stale) by compute_done.
  split.
  - split; [reflexivity|].
    split; [exact (E1 eq_refl)|]. split; [exact (E2 eq_refl)|].
    split; [exact (E3 eq_refl)|exact (E4 eq_refl)].
  - split; [exact Hi|]. split; [exact Hi'|].
    split; [exact Hp|]. split; [exact Hp'|].
    split; [exact (K1 Hi Hi')|]. split; [exact (K2 Hi Hi')|].
    split; [exact (K3 Hp Hp')|exact (K4 Hp Hp')].
Defined.

(** [same_layer_in_both_dropdowns] on a viewer with one points layer. *)
Lemma same_layer_in_both_dropdowns_witness :
  let s :=
    __init__ (Coord := Z)
      [ {| name := "Cells"; pytype := Points; data := [(10, 20, 30)%Z];
           metadata := ∅ |} ]
      [0] default_config in
  (currentText (training_data_cell_choice s) = "Cells" ∧
   currentText (training_data_non_cell_choice s) = "Cells" ∧
   "Cells" ≠ "" ∧ "Cells" ∈ viewer_names s) ∧
  ∃ r s1 s2 l2,
    set_training_data_cell s = Ok tt s1 ∧
    set_training_data_non_cell s1 = Ok tt s2 ∧
    training_data_cell_layer s2 = Some r ∧
    training_data_non_cell_layer s2 = Some r ∧
    objs s2 !! r = Some l2 ∧
    metadata l2 !! "point_type" = Some (MPointType UNKNOWN).
Proof.
  intros s.
  assert (H4 : "Cells" ∈ viewer_names s) by compute_done.
  assert (H3 : "Cells" ≠ "") by done.
  split; [by split_and!|].
  destruct (same_layer_in_both_dropdowns s "Cells" eq_refl eq_refl H3 H4)
    as (r & l & s1 & s2 & l2 & _ & _ & R1 & R2 & F1 & F2 & Hl2 & Hm & _).
  exists r, s1, s2, l2.
  split_and!; [exact R1|exact R2|exact F1|exact F2|exact Hl2|exact Hm].
Defined.

(** [update_layer_list_forgets_selection] on two panels over the same
    layers, with different selections in the cell dropdown. *)
Lemma update_layer_list_forgets_selection_witness :
  let s1 :=
    __init__ (Coord := Z)
      [ {| name := "Cells"; pytype := Points; data := [(10, 20, 30)%Z];
           metadata := ∅ |};
        {| name := "Non cells"; pytype := Points; data := [];
           metadata := ∅ |} ]
      [0; 1] default_config in
  let s2 :=
    set_training_data_cell_choice
      (setCurrentText (training_data_cell_choice s1) "Non cells") s1 in
  viewer_objs s1 = viewer_objs s2 ∧
  currentText (training_data_cell_choice s1) = "Cells" ∧
  currentText (training_data_cell_choice s2) = "Non cells" ∧
  training_data_cell_choice (update_layer_list s1) =
    training_data_cell_choice (update_layer_list s2).
Proof.
  intros s1 s2.
  assert (Hv : viewer_objs s1 = viewer_objs s2) by reflexivity.
  split; [exact Hv|]. split; [reflexivity|]. split; [reflexivity|].
  destruct (update_layer_list_forgets_selection s1 s2 Hv)
    as (_ & _ & H & _). exact H.
Defined.

(** [layer_names_ordered_and_disjoint] on a viewer with an image, a labels
    layer and a points layer. *)
Lemma layer_names_ordered_and_disjoint_witness :
  let s :=
    __init__ (Coord := Z)
      [ {| name := "signal"; pytype := Image; data := []; metadata := ∅ |};
        {| name := "atlas"; pytype := Subclass Image "Labels"; data := [];
           metadata := ∅ |};
        {| name := "Cells"; pytype := Points; data := [(10, 20, 30)%Z];
           metadata := ∅ |} ]
      [0; 1; 2] default_config in
  NoDup (viewer_names s) ∧
  "signal" ∈ _get_layer_names Image s ∧
  "signal" ∉ _get_layer_names Points s.
Proof.
  intros s.
  assert (Hnd : NoDup (viewer_names s)) by compute_done.
  assert (Hin : "signal" ∈ _get_layer_names Image s) by compute_done.
  split; [exact Hnd|]. split; [exact Hin|].
  destruct (layer_names_ordered_and_disjoint s) as (_ & _ & Hdis).
  exact (Hdis Hnd "signal" Hin).
Defined.

(** [convert_layers_to_cells_partial_update] on a panel whose cell field
    alone is set, and on one with neither field set. *)
Lemma convert_layers_to_cells_partial_update_witness :
  let lc := {| name := "Cells"; pytype := Points; data := [(10, 20, 30)%Z];
               metadata := ∅ |} in
  let s0 := __init__ (Coord := Z) [lc] [0] default_config in
  let s := set_training_data_cell_layer (Some 0) s0 in
  (training_data_cell_layer s0 = None ∧
   convert_layers_to_cells s0 = Raise AttributeError s0) ∧
  (training_data_cell_layer s = Some 0 ∧ objs s !! 0 = Some lc ∧
   training_data_non_cell_layer s = None ∧
   ∃ s', convert_layers_to_cells s = Raise AttributeError s' ∧
         cells_to_extract s' =
           Some [ {| pos := (10, 20, 30)%Z; cell_type := CELL |} ] ∧
         non_cells_to_extract s' = None).
Proof.
  intros lc s0 s. split.
  - split; [reflexivity|].
    exact (proj1 (convert_layers_to_cells_partial_update s0) eq_refl).
  - split; [reflexivity|]. split; [reflexivity|]. split; [reflexivity|].
    destruct (proj2 (convert_layers_to_cells_partial_update s) 0 lc
                eq_refl eq_refl eq_refl) as (s' & Hrun & Hc & Hn & _).
    exists s'. split_and!; [exact Hrun|exact Hc|exact Hn].
Defined.

(** [new_panel_is_consistent] on a viewer with an image and a points
    layer. *)
Lemma new_panel_is_consistent_witness :
  let store :=
    [ {| name := "signal"; pytype := Image; data := []; metadata := ∅ |};
      {| name := "Cells"; pytype := Points; data := [(10, 20, 30)%Z];
         metadata := ∅ |} ] in
  let s := __init__ (Coord := Z) store [0; 1] default_config in
  Forall (λ r, r < length store) [0; 1] ∧
  wf s ∧ synced s ∧ training_data_cell_layer s = None ∧
  status_label s = "Ready".
Proof.
  intros store s.
  assert (Hok : Forall (λ r, r < length store) [0; 1])
    by (repeat constructor; simpl; lia).
  split; [exact Hok|].
  destruct (new_panel_is_consistent store [0; 1] default_config Hok)
    as (Hwf & Hs & _ & _ & Hc & _ & Hst & _).
  split_and!; [exact Hwf|exact Hs|exact Hc|exact Hst].
Defined.

(** [events_keep_references_valid] on a new panel: a selection, the add
    button, an export and a refresh. *)
Lemma events_keep_references_valid_witness :
  let naming := λ (_ : list string) (n : string), n in
  let s :=
    __init__ (Coord := Z)
      [ {| name := "Cells"; pytype := Points; data := [(10, 20, 30)%Z];
           metadata := ∅ |} ]
      [0] default_config in
  let es := [CellChosen; AddClicked "A" "B"; ExtractClicked "/data/cubes";
             LayersChanged] in
  wf s ∧ wf (after_events naming es s).
Proof.
  intros naming s es.
  assert (Hwf : wf s).
  { unfold wf, refs_ok. split_and!; try done.
    repeat constructor; simpl; lia. }
  split; [exact Hwf|]. exact (events_keep_references_valid naming es s Hwf).
Defined.

(** [events_keep_dropdowns_synced] on the same panel and events. *)
Lemma events_keep_dropdowns_synced_witness :
  let naming := λ (_ : list string) (n : string), n in
  let s :=
    __init__ (Coord := Z)
      [ {| name := "Cells"; pytype := Points; data := [(10, 20, 30)%Z];
           metadata := ∅ |} ]
      [0] default_config in
  let es := [CellChosen; AddClicked "A" "B"; ExtractClicked "/data/cubes";
             LayersChanged] in
  synced s ∧ synced (after_events naming es s).
Proof.
  intros naming s es.
  assert (Hs : synced s) by (unfold synced; by split_and!).
  split; [exact Hs|]. exact (events_keep_dropdowns_synced naming es s Hs).
Defined.

(** [events_raise_only_attribute_error] on a new panel: after the cell
    layer has been chosen, the export raises. *)
Lemma events_raise_only_attribute_error_witness :
  let naming := λ (_ : list string) (n : string), n in
  let s :=
    __init__ (Coord := Z)
      [ {| name := "Cells"; pytype := Points; data := [(10, 20, 30)%Z];
           metadata := ∅ |} ]
      [0] default_config in
  wf s ∧ synced s ∧
  ∃ exn s',
    handle naming (ExtractClicked "/data/cubes")
      (after_events naming [CellChosen] s) = Raise exn s' ∧
    exn = AttributeError ∧
    ∃ chosen, ExtractClicked "/data/cubes" = ExtractClicked chosen.
Proof.
  intros naming s.
  assert (Hwf : wf s).
  { unfold wf, refs_ok. split_and!; try done.
    repeat constructor; simpl; lia. }
  assert (Hs : synced s) by (unfold synced; by split_and!).
  split; [exact Hwf|]. split; [exact Hs|].
  destruct (handle naming (ExtractClicked "/data/cubes")
              (after_events naming [CellChosen] s)) as [a s'|exn s'] eqn:E.
  - exfalso. vm_compute in E. discriminate E.
  - exists exn, s'. split; [reflexivity|].
    exact (events_raise_only_attribute_error naming [CellChosen] s
             (ExtractClicked "/data/cubes") exn s' Hwf Hs E).
Defined.

